(** * The retail assistant's query-refinement and result-selection pipeline

    A shallow embedding of the helper modules that the notebook
    [03-creating-llm-functions.ipynb] writes out with [%%writefile]:

      - [util/getasinlist.py]   ([get_asin_list])
      - [util/imagehelpers.py]  ([filter_image_url], [url_image_processing],
                                 [get_base64_from_bytes])
      - [util/pickimg.py]       ([pick_img])
      - [util/refinequery.py]   ([refine_query], [clean_text])
      - [util/getinfo.py]       ([get_info_from_db], the statement it issues)

    Python values are modelled as follows.  A [str] is a [string] whose
    characters are the code points below 256.  A raised exception is the
    [Raise] case of the result type [Exc]; a bare [except:] is
    [try_except].  [None] is the [None] of an [option].  The remote
    collaborators (image store, language model) and the library routines
    whose full behaviour is not needed ([ast.literal_eval], base64) are the
    fields of the record [Services]; the outcome of fetching a URL is a
    function of the URL, i.e. the store does not change while the modules
    run. *)

From Stdlib Require Import List String Ascii ZArith Bool Arith Lia.
Import ListNotations.
Local Open Scope string_scope.

(* ================================================================= *)
(** ** Exceptions *)

Inductive exn : Type :=
| IndexError
| TypeError
| ValueError
| SyntaxError
| AttributeError
| MissingSchema        (* requests.get on something that is not a URL *)
| ConnectionError      (* requests: transport failure *)
| UnidentifiedImageError (* PIL.Image.open on bytes that are no image *)
| ClientError          (* botocore: the service call failed *)
| DanglingReference.   (* a heap address that names no object; never
                          produced by a Python program *)

Inductive Exc (A : Type) : Type :=
| Ok (a : A)
| Raise (e : exn).
Arguments Ok {A} a.
Arguments Raise {A} e.

Definition bindE {A B} (m : Exc A) (k : A -> Exc B) : Exc B :=
  match m with
  | Ok a => k a
  | Raise e => Raise e
  end.

(** [try: body  except: handler] with a bare [except]. *)
Definition try_except {A} (body : Exc A) (handler : Exc A) : Exc A :=
  match body with
  | Ok a => Ok a
  | Raise _ => handler
  end.

Declare Scope exc_scope.
Delimit Scope exc_scope with exc.
Notation "x <- m ;; k" := (bindE m (fun x => k))
  (at level 61, m at next level, right associativity) : exc_scope.
Local Open Scope exc_scope.

(** [for x in l: s = body x s], stopping at the first exception. *)
Fixpoint for_each {A S} (l : list A) (body : A -> S -> Exc S) (s : S) : Exc S :=
  match l with
  | [] => Ok s
  | x :: rest => s' <- body x s ;; for_each rest body s'
  end.

(* ================================================================= *)
(** ** Python sequence and string primitives *)

(** [l[i]] on a list: negative indices count from the end, anything out of
    range raises [IndexError]. *)
Definition getitem {A} (l : list A) (i : Z) : Exc A :=
  let n := Z.of_nat (List.length l) in
  let j := if (i <? 0)%Z then (i + n)%Z else i in
  if ((j <? 0)%Z || (n <=? j)%Z)%bool then Raise IndexError
  else match nth_error l (Z.to_nat j) with
       | Some x => Ok x
       | None => Raise IndexError
       end.

(** [s.split(sep)] for a one-character separator. *)
Fixpoint split (sep : ascii) (s : string) : list string :=
  match s with
  | EmptyString => [EmptyString]
  | String c s' =>
      if Ascii.eqb c sep then EmptyString :: split sep s'
      else match split sep s' with
           | [] => [String c EmptyString]
           | w :: ws => String c w :: ws
           end
  end.

(** [s.count(c)] for a one-character argument. *)
Fixpoint count_char (c : ascii) (s : string) : nat :=
  match s with
  | EmptyString => 0
  | String d s' => (if Ascii.eqb d c then 1 else 0) + count_char c s'
  end.

Definition mem_char (c : ascii) (chars : string) : bool :=
  negb (Nat.eqb (count_char c chars) 0).

Fixpoint lstrip_by (p : ascii -> bool) (s : string) : string :=
  match s with
  | EmptyString => EmptyString
  | String c s' => if p c then lstrip_by p s' else s
  end.

Fixpoint rstrip_by (p : ascii -> bool) (s : string) : string :=
  match s with
  | EmptyString => EmptyString
  | String c s' =>
      match rstrip_by p s' with
      | EmptyString => if p c then EmptyString else String c EmptyString
      | r => String c r
      end
  end.

(** [s.strip(chars)]: drop leading and trailing characters of [chars]. *)
Definition strip_chars (chars : string) (s : string) : string :=
  rstrip_by (fun c => mem_char c chars) (lstrip_by (fun c => mem_char c chars) s).

(** [c.isspace()] for code points below 256. *)
Definition isspace (c : ascii) : bool :=
  let n := nat_of_ascii c in
  (((9 <=? n) && (n <=? 13)) || ((28 <=? n) && (n <=? 32))
   || (n =? 133) || (n =? 160))%nat.

(** [s.strip()]. *)
Definition strip (s : string) : string :=
  rstrip_by isspace (lstrip_by isspace s).

(** [c.isalnum()] for code points below 256: the ASCII digits and letters,
    and the Latin-1 letters and numeric characters. *)
Definition isalnum (c : ascii) : bool :=
  let n := nat_of_ascii c in
  (((48 <=? n) && (n <=? 57)) || ((65 <=? n) && (n <=? 90))
   || ((97 <=? n) && (n <=? 122))
   || (n =? 170) || (n =? 178) || (n =? 179) || (n =? 181) || (n =? 185)
   || (n =? 186) || ((188 <=? n) && (n <=? 190))
   || ((192 <=? n) && (n <=? 214)) || ((216 <=? n) && (n <=? 246))
   || (248 <=? n))%nat.

(** The class [\w] of [re] on [str] patterns: alphanumeric or underscore. *)
Definition is_word (c : ascii) : bool := isalnum c || Ascii.eqb c "_".

(** [re.sub(pattern, '', s)]: scan from the left; where the pattern matches
    (the matcher gives the length of the match that starts here), drop the
    match and go on behind it; elsewhere keep the character.  [skip] counts
    the characters of the current match that are still to be dropped.  The
    patterns used here never match the empty string. *)
Fixpoint re_sub_del (matcher : string -> option nat) (skip : nat) (s : string)
  : string :=
  match s with
  | EmptyString => EmptyString
  | String c s' =>
      match skip with
      | S k => re_sub_del matcher k s'
      | O =>
          match matcher s with
          | Some (S k) => re_sub_del matcher k s'
          | _ => String c (re_sub_del matcher 0 s')
          end
      end
  end.

(** The pattern [\W+]: the longest run of non-word characters. *)
Fixpoint nonword_run (s : string) : nat :=
  match s with
  | EmptyString => 0
  | String c s' => if is_word c then 0 else S (nonword_run s')
  end.

Definition match_nonword_run (s : string) : option nat :=
  match nonword_run s with
  | O => None
  | n => Some n
  end.

(** The pattern [<.*?>]: a [<], then as few characters as possible other
    than newline, then a [>].  [until_gt s] is the number of characters up
    to and including the first [>] of [s], if no newline comes before it. *)
Fixpoint until_gt (s : string) : option nat :=
  match s with
  | EmptyString => None
  | String c s' =>
      if Ascii.eqb c ">" then Some 1
      else if Ascii.eqb c "010" then None
      else option_map S (until_gt s')
  end.

Definition match_tag (s : string) : option nat :=
  match s with
  | String "<" s' => option_map S (until_gt s')
  | _ => None
  end.

(** [s.replace(old, '')] for a non-empty [old]. *)
Definition match_literal (old : string) (s : string) : option nat :=
  if String.prefix old s then Some (String.length old) else None.

Definition replace_del (old : string) (s : string) : string :=
  re_sub_del (match_literal old) 0 s.

(* ================================================================= *)
(** ** util/getasinlist.py *)

(** One hit of the knowledge base; [get_asin_list] reads
    [item['location']['s3Location']['uri']] only. *)
Record S3Location : Type := { uri : string }.
Record Location : Type := { s3Location : S3Location }.
Record RetrievalResult : Type := { location : Location }.

(** What a caller may hand to [get_asin_list]: the function inspects
    [type(search_list)]. *)
Inductive SearchList : Type :=
| SearchNone                               (* None *)
| SearchItems (l : list RetrievalResult)   (* a list of hits *)
| SearchItem (r : RetrievalResult)         (* one hit, a dict *)
| SearchStr (s : string).                  (* a str *)

(** [uri.split('/')[-1].split('.')[0]] *)
Definition asin_of_uri (u : string) : Exc string :=
  base <- getitem (split "/" u) (-1) ;;
  getitem (split "." base) 0.

Definition get_asin_list (search_list : SearchList)
  : Exc (option (list string)) :=
  match search_list with
  | SearchItems l =>
      asin_list <-
        for_each l
          (fun search_item asin_list =>
             a <- asin_of_uri (uri (s3Location (location search_item))) ;;
             Ok (asin_list ++ [a])%list)
          [] ;;
      Ok (Some asin_list)
  | SearchStr _ =>
      (* search_list['location'] on a str *)
      Raise TypeError
  | SearchNone | SearchItem _ => Ok None
  end.

(** The words of the design for the identifier: the basename of the path
    and the basename without its last extension. *)
Fixpoint basename (s : string) : string :=
  match s with
  | EmptyString => EmptyString
  | String c s' => if Nat.eqb (count_char "/" s) 0 then s else basename s'
  end.

Fixpoint strip_last_extension (b : string) : string :=
  match b with
  | EmptyString => EmptyString
  | String c b' =>
      if (Ascii.eqb c "." && Nat.eqb (count_char "." b') 0)%bool
      then EmptyString
      else String c (strip_last_extension b')
  end.

Definition filename_stem (u : string) : string :=
  strip_last_extension (basename u).

(** The part of a string before its first occurrence of [sep]. *)
Fixpoint before_first (sep : ascii) (s : string) : string :=
  match s with
  | EmptyString => EmptyString
  | String c s' =>
      if Ascii.eqb c sep then EmptyString else String c (before_first sep s')
  end.

(* ================================================================= *)
(** ** Requests to the language model *)

Definition bytes : Type := list Byte.byte.

Inductive ContentBlock : Type :=
| TextBlock (text : string)
| ImageBlock (media_type : string) (data : string).

(** The JSON body of [invoke_model]; [messages] is the content of its one
    user message. *)
Record Body : Type := {
  anthropic_version : string;
  max_tokens : Z;
  temperature : Z;
  system : string;
  messages : list ContentBlock
}.

Definition model_id : string := "anthropic.claude-3-sonnet-20240229-v1:0".

(** The values [ast.literal_eval] can produce, as far as [pick_img] tells
    them apart; [PyStr] is also the unparsed answer. *)
Inductive PyValue : Type :=
| PyInt (z : Z)
| PyBool (b : bool)
| PyStr (s : string)
| PyOther.

(** [isinstance(v, int)], with the integer it stands for ([bool] is a
    subclass of [int]). *)
Definition as_int (v : PyValue) : option Z :=
  match v with
  | PyInt z => Some z
  | PyBool true => Some 1%Z
  | PyBool false => Some 0%Z
  | PyStr _ | PyOther => None
  end.

Record Product : Type := {
  asin : string;
  title : string;
  image : option string      (* the picked image, or None *)
}.

Definition pick_img_system_prompt : string := "
    Based on the user's text and images, select and output the identifier for the image that best matches the text and is most visually appealing to shoppers.
    Please output only the image number enclosed in a python array and nothing else.".

Definition refine_query_system_prompt : string := "
    Your task is to help the user find fashion apparel that they like.
    Please only construct and output a descriptive text search query optimized for search with pgvector. Do not output anything else.
    Be as descriptive as reasonable and use information from the user input to identify features like age group, gender, color, material etc to help find fashion apparel. 
    Do not assume or hallucinate.
    Always refine the search query by using the CURRENT USER QUERY to update your output, factoring in PAST USER QUERY and IMAGE.".

(** [clean_text], the local function of [refine_query]. *)
Definition clean_text (text : string) : string :=
  let clean_text := re_sub_del match_tag 0 text in
  let output_text := strip (replace_del "/[^a-zA-Z0-9 ]" clean_text) in
  output_text.

(** The [for i, query in enumerate(query_history)] loop with its
    [if i==3: break]. *)
Fixpoint past_queries (i : nat) (query_history : list string)
  (content : list ContentBlock) : list ContentBlock :=
  match query_history with
  | [] => content
  | query :: rest =>
      let content :=
        (content ++ [TextBlock ("PAST USER QUERY: " ++ query)])%list in
      if Nat.eqb i 3 then content else past_queries (S i) rest content
  end.

(* ================================================================= *)
(** ** The interpreter state seen by [refine_query] *)

(** List objects live in a heap and are passed by address, so that a
    caller's list and the list a callee returns can be told apart.  The
    process-wide state that [refine_query] writes is the configuration of
    the root logger: its level and its handlers, of which only the number
    matters here.  The record that [logger.info] may emit through those
    handlers is output, not state, and is not modelled. *)
Definition loc : Type := nat.

Record PyState : Type := {
  heap : list (list string);
  root_level : Z;
  root_handlers : nat
}.

Definition M (A : Type) : Type := PyState -> Exc A * PyState.

Definition retM {A} (a : A) : M A := fun st => (Ok a, st).

Definition bindM {A B} (m : M A) (k : A -> M B) : M B :=
  fun st =>
    match m st with
    | (Ok a, st') => k a st'
    | (Raise e, st') => (Raise e, st')
    end.

Definition liftE {A} (m : Exc A) : M A := fun st => (m, st).

Notation "x <~ m ;; k" := (bindM m (fun x => k))
  (at level 61, m at next level, right associativity) : exc_scope.

(** A new list object. *)
Definition alloc (l : list string) : M loc :=
  fun st =>
    (Ok (List.length (heap st)),
     {| heap := (heap st ++ [l])%list;
        root_level := root_level st;
        root_handlers := root_handlers st |}).

(** The elements of the list object at an address. *)
Definition deref (a : loc) : M (list string) :=
  fun st =>
    match nth_error (heap st) a with
    | Some l => (Ok l, st)
    | None => (Raise DanglingReference, st)
    end.

(** [logging._nameToLevel] *)
Definition nameToLevel (name : string) : option Z :=
  if String.eqb name "CRITICAL" then Some 50%Z
  else if String.eqb name "FATAL" then Some 50%Z
  else if String.eqb name "ERROR" then Some 40%Z
  else if String.eqb name "WARN" then Some 30%Z
  else if String.eqb name "WARNING" then Some 30%Z
  else if String.eqb name "INFO" then Some 20%Z
  else if String.eqb name "DEBUG" then Some 10%Z
  else if String.eqb name "NOTSET" then Some 0%Z
  else None.

(** [logging.basicConfig()]: a root logger without handlers gets one (a
    stream handler); one that has handlers is left as it is. *)
Definition with_root_handler (st : PyState) : PyState :=
  {| heap := heap st;
     root_level := root_level st;
     root_handlers :=
       if Nat.eqb (root_handlers st) 0 then 1 else root_handlers st |}.

Definition basicConfig : M unit := fun st => (Ok tt, with_root_handler st).

(** [logging.getLogger().setLevel(level)] for the
    [level = logging.getLevelName(log_level)] computed two lines above it:
    [getLevelName] turns a known name into its number and any other string
    [s] into ["Level s"], which [setLevel] rejects with [ValueError]. *)
Definition set_root_level (log_level : string) : M unit :=
  fun st =>
    match nameToLevel log_level with
    | Some n =>
        (Ok tt,
         {| heap := heap st; root_level := n;
            root_handlers := root_handlers st |})
    | None => (Raise ValueError, st)
    end.

(* ================================================================= *)
(** ** The collaborators *)

(** Everything the modules reach outside themselves.
    - [Image_open u] is [Image.open(requests.get(u, stream=True).raw)]:
      it returns when [u] can be fetched and decoded as an image.
    - [requests_get_content u] is [requests.get(u).content].
    - [b64encode] is [base64.b64encode(...).decode("utf-8")].
    - [invoke_model m body] is the text of the first content block of the
      model's reply, [json.loads(response.get('body').read())['content'][0]['text']].
    - [literal_eval] is [ast.literal_eval]. *)
Record Services : Type := {
  Image_open : string -> Exc unit;
  requests_get_content : string -> Exc bytes;
  b64encode : bytes -> string;
  invoke_model : string -> Body -> Exc string;
  literal_eval : string -> Exc PyValue
}.

Section Modules.

Variable sv : Services.

(** *** util/imagehelpers.py *)

Definition filter_image_url (img_list : list string)
  : Exc (option (list string)) :=
  images <-
    for_each img_list
      (fun url images =>
         try_except
           (image <- Image_open sv url ;; Ok (images ++ [url])%list)
           (Ok images))
      [] ;;
  if Nat.eqb (List.length images) 0 then Ok None else Ok (Some images).

(** [requests.get] of [None] (a product without a picked image) fails
    before any transfer. *)
Definition url_image_processing (imgurl : option string) : Exc bytes :=
  match imgurl with
  | Some u => requests_get_content sv u
  | None => Raise MissingSchema
  end.

Definition get_base64_from_bytes (image_bytes : bytes) : string :=
  b64encode sv image_bytes.

(** *** util/pickimg.py *)

Definition pick_img (text_input : string) (img_list : list string)
  : Exc (option string) :=
  let content := [TextBlock text_input] in
  img_list <- filter_image_url img_list ;;
  match img_list with
  | None => Ok None
  | Some img_list =>
      content <-
        for_each img_list
          (fun img content =>
             raw <- url_image_processing (Some img) ;;
             let image_data := get_base64_from_bytes raw in
             Ok (content ++ [ImageBlock "image/jpeg" image_data])%list)
          content ;;
      let body :=
        {| anthropic_version := "bedrock-2023-05-31";
           max_tokens := 10;
           temperature := 0;
           system := pick_img_system_prompt;
           messages := content |} in
      answer <- invoke_model sv model_id body ;;
      let answer :=
        match literal_eval sv (strip_chars "[]" answer) with
        | Ok v => v
        | Raise _ => PyStr answer      (* except: pass *)
        end in
      match as_int answer with
      | Some answer =>
          if (answer <? Z.of_nat (List.length img_list))%Z
          then img <- getitem img_list (answer - 1) ;; Ok (Some img)
          else Ok None
      | None => Ok None
      end
  end.

(** *** util/refinequery.py *)

(** [query_history] is [None] or the address of the caller's list; the
    result is the refined query and the address of the updated history. *)
Definition refine_query (input_text : string) (query_history : option loc)
  (product : option Product) (log_level : string) : M (string * loc) :=
  let content := [TextBlock ("CURRENT USER QUERY: " ++ input_text)] in
  content <~
    match query_history with
    | Some a =>
        qs <~ deref a ;;
        retM (if Nat.eqb (List.length qs) 0 then content
              else past_queries 0 qs content)
    | None => retM content
    end ;;
  content <~
    match product with
    | Some p =>
        raw <~ liftE (url_image_processing (image p)) ;;
        let image_data := get_base64_from_bytes raw in
        retM (content ++ [TextBlock ("IMAGE title: " ++ title p);
                          ImageBlock "image/jpeg" image_data])%list
    | None => retM content
    end ;;
  _ <~ basicConfig ;;
  _ <~ set_root_level log_level ;;
  let body :=
    {| anthropic_version := "bedrock-2023-05-31";
       max_tokens := 4000;
       temperature := 0;
       system := refine_query_system_prompt;
       messages := content |} in
  output_query <~ liftE (invoke_model sv model_id body) ;;
  let output_query := clean_text output_query in
  match query_history with
  | Some a =>
      qs <~ deref a ;;
      if negb (Nat.eqb (List.length qs) 0) then
        (* [output_query] + query_history, then query_list[:3] *)
        head <~ alloc [output_query] ;;
        l1 <~ deref head ;;
        l2 <~ deref a ;;
        query_list <~ alloc (l1 ++ l2)%list ;;
        l <~ deref query_list ;;
        query_list <~ alloc (firstn 3 l) ;;
        retM (output_query, query_list)
      else
        query_list <~ alloc [output_query] ;;
        retM (output_query, query_list)
  | None =>
      query_list <~ alloc [output_query] ;;
      retM (output_query, query_list)
  end.

End Modules.

(* ================================================================= *)
(** ** util/getinfo.py *)

(** The first statement of [get_info_from_db]:
    [asin = re.sub(r'\W+', '', asin)]. *)
Definition sanitize_asin (asin : string) : string :=
  re_sub_del match_nonword_run 0 asin.

(** The statement [get_info_from_db] sends to the catalog. *)
Definition get_info_from_db_query (asin : string) : string :=
  let asin := sanitize_asin asin in
  "SELECT asin, title, image FROM products WHERE asin='" ++ asin ++ "';".

(** The identifier the design describes: the input without its
    non-alphanumeric characters. *)
Fixpoint keep_chars (p : ascii -> bool) (s : string) : string :=
  match s with
  | EmptyString => EmptyString
  | String c s' => if p c then String c (keep_chars p s') else keep_chars p s'
  end.

Fixpoint all_chars (p : ascii -> bool) (s : string) : bool :=
  match s with
  | EmptyString => true
  | String c s' => p c && all_chars p s'
  end.

(* ================================================================= *)
(** ** A concrete world, for running the modules *)

(** [ast.literal_eval] on the replies that it reads as an [int] or a
    [bool]: an integer literal (decimal, or with a [0x], [0o] or [0b]
    prefix; single underscores between digits; a leading zero only in a
    decimal literal of value zero) with at most one sign in front, and the
    names [True] and [False], with blanks allowed in front, after the sign
    and at the end.  Other strings are given an exception: that is what
    Python does for most of them (for the others it yields a value that
    is no [int], or, for spellings left out here such as a literal in
    parentheses, the integer), and [pick_img] treats an exception and a
    value that is no [int] alike. *)
Definition digit_of (c : ascii) : option Z :=
  let n := nat_of_ascii c in
  if ((48 <=? n) && (n <=? 57))%nat then Some (Z.of_nat (n - 48))
  else if ((97 <=? n) && (n <=? 102))%nat then Some (Z.of_nat (n - 87))
  else if ((65 <=? n) && (n <=? 70))%nat then Some (Z.of_nat (n - 55))
  else None.

(** Digits of [base] with single underscores between them; [after_digit]
    tells whether an underscore may come next. *)
Fixpoint digits_value (base : Z) (s : string) (acc : Z) (after_digit : bool)
  : option Z :=
  match s with
  | EmptyString => if after_digit then Some acc else None
  | String c s' =>
      if Ascii.eqb c "_" then
        if after_digit then digits_value base s' acc false else None
      else
        match digit_of c with
        | Some d =>
            if (d <? base)%Z then digits_value base s' (base * acc + d)%Z true
            else None
        | None => None
        end
  end.

Definition prefixed_value (base : Z) (digits : string) : option Z :=
  match digits with
  | EmptyString => None
  | _ => digits_value base digits 0 true
  end.

Definition int_literal (s : string) : Exc Z :=
  let malformed (v : option Z) : Exc Z :=
    match v with
    | Some z => Ok z
    | None => Raise ValueError
    end in
  match s with
  | EmptyString => Raise SyntaxError
  | String "0" (String "x" r) | String "0" (String "X" r) =>
      malformed (prefixed_value 16 r)
  | String "0" (String "o" r) | String "0" (String "O" r) =>
      malformed (prefixed_value 8 r)
  | String "0" (String "b" r) | String "0" (String "B" r) =>
      malformed (prefixed_value 2 r)
  | String c _ =>
      match digits_value 10 s 0 false with
      | Some v =>
          if (Ascii.eqb c "0" && negb (v =? 0)%Z)%bool then Raise SyntaxError
          else Ok v
      | None => Raise ValueError
      end
  end.

Definition literal_eval_int (s : string) : Exc PyValue :=
  let blank := fun c => (Ascii.eqb c " " || Ascii.eqb c "009")%bool in
  let s := rstrip_by (fun c => (blank c || Ascii.eqb c "010")%bool)
                     (lstrip_by blank s) in
  if String.eqb s "True" then Ok (PyBool true)
  else if String.eqb s "False" then Ok (PyBool false)
  else
    match s with
    | String "-" r => v <- int_literal (lstrip_by blank r) ;; Ok (PyInt (- v))
    | String "+" r => v <- int_literal (lstrip_by blank r) ;; Ok (PyInt v)
    | _ => v <- int_literal s ;; Ok (PyInt v)
    end.

(** A store in which exactly the [https://] URLs hold an image, and a model
    that always gives the same reply. *)
Definition demo_services (reply : string) : Services :=
  {| Image_open := fun u =>
       if String.prefix "https://" u then Ok tt else Raise UnidentifiedImageError;
     requests_get_content := fun u =>
       if String.prefix "https://" u then Ok [Byte.xff; Byte.xd8]
       else Raise ConnectionError;
     b64encode := fun _ => "/9g=";
     invoke_model := fun _ _ => Ok reply;
     literal_eval := literal_eval_int |}.

Definition url_A : string := "https://m.media-amazon.com/images/I/A.jpg".
Definition url_B : string := "https://m.media-amazon.com/images/I/B.jpg".
Definition url_C : string := "https://m.media-amazon.com/images/I/C.jpg".
Definition url_bad : string := "".

Definition state0 : PyState :=
  {| heap := [["stretchy breathable sports wear"]];
     root_level := 30;
     root_handlers := 0 |}.

Definition hit (u : string) : RetrievalResult :=
  {| location := {| s3Location := {| uri := u |} |} |}.

(** Whether a URL survives the [try] of [filter_image_url]. *)
Definition fetch_ok (sv : Services) (u : string) : bool :=
  match Image_open sv u with
  | Ok _ => true
  | Raise _ => false
  end.

(** What a caller can observe of a call of [refine_query]: the exception,
    or the query together with the elements of the returned history. *)
Definition observed (res : Exc (string * loc) * PyState)
  : Exc (string * option (list string)) :=
  match res with
  | (Ok (q, a), st') => Ok (q, nth_error (heap st') a)
  | (Raise e, _) => Raise e
  end.

(** The elements of the history a caller passes, if it passes one. *)
Definition history_at (query_history : option loc) (st : PyState)
  : option (list string) :=
  match query_history with
  | Some a => nth_error (heap st) a
  | None => None
  end.

(** The stages of a call of [refine_query], read off its text, for stating
    what a call does to the state: the elements of the history it is passed,
    the content it sends, and the request bodies of the two modules. *)
Definition history_elems (query_history : option loc) (st : PyState)
  : Exc (list string) :=
  match query_history with
  | None => Ok []
  | Some a =>
      match nth_error (heap st) a with
      | Some qs => Ok qs
      | None => Raise DanglingReference
      end
  end.

Definition refine_content (sv : Services) (input_text : string)
  (qs : list string) (product : option Product) : Exc (list ContentBlock) :=
  let content := [TextBlock ("CURRENT USER QUERY: " ++ input_text)] in
  let content :=
    if Nat.eqb (List.length qs) 0 then content else past_queries 0 qs content in
  match product with
  | Some p =>
      raw <- url_image_processing sv (image p) ;;
      Ok (content ++ [TextBlock ("IMAGE title: " ++ title p);
                      ImageBlock "image/jpeg" (get_base64_from_bytes sv raw)])%list
  | None => Ok content
  end.

Definition pick_body (content : list ContentBlock) : Body :=
  {| anthropic_version := "bedrock-2023-05-31";
     max_tokens := 10;
     temperature := 0;
     system := pick_img_system_prompt;
     messages := content |}.

Definition refine_body (content : list ContentBlock) : Body :=
  {| anthropic_version := "bedrock-2023-05-31";
     max_tokens := 4000;
     temperature := 0;
     system := refine_query_system_prompt;
     messages := content |}.

(* ================================================================= *)
(** ** The rest of the notebook's code *)

(** The cell that continues a conversation picks the next product with
    [list(filter(lambda x: x != search_asin, asin_list))[0]]; [asin_list]
    is what [get_asin_list] returned, so it may be [None], which [filter]
    cannot iterate. *)
Definition first_unseen (search_asin : string) (asin_list : option (list string))
  : Exc string :=
  match asin_list with
  | Some l => getitem (filter (fun x => negb (String.eqb x search_asin)) l) 0
  | None => Raise TypeError
  end.

(** [json.dumps] of a [str] (with the default [ensure_ascii]): the text in
    double quotes, with the quote and the backslash escaped by a backslash,
    the control characters that have one by their short escape, and every
    other character outside [' '..'~'] by [\u00xx]. *)
Definition hex_digit (n : nat) : ascii :=
  match String.get n "0123456789abcdef" with
  | Some c => c
  | None => "0"%char
  end.

Definition json_escape_char (c : ascii) : string :=
  let n := nat_of_ascii c in
  if (n =? 34)%nat then String "\" (String c EmptyString)
  else if (n =? 92)%nat then "\\"
  else if (n =? 10)%nat then "\n"
  else if (n =? 13)%nat then "\r"
  else if (n =? 9)%nat then "\t"
  else if (n =? 8)%nat then "\b"
  else if (n =? 12)%nat then "\f"
  else if ((32 <=? n) && (n <=? 126))%nat then String c EmptyString
  else "\u00" ++ String (hex_digit (n / 16)) (String (hex_digit (n mod 16)) EmptyString).

Fixpoint json_escape (s : string) : string :=
  match s with
  | EmptyString => EmptyString
  | String c s' => json_escape_char c ++ json_escape s'
  end.

Definition json_dumps (s : string) : string :=
  String "034" (json_escape s ++ String "034" EmptyString).

(** The characters that [get_info_from_db] strips from the dumped image
    value: backslash, single quote and double quote. *)
Definition quote_chars : string :=
  String "\" (String "'" (String "034" EmptyString)).

Section Catalog.

(** The values [ast.literal_eval] yields for the image column; nothing is
    done with them but returning them. *)
Variable PyObj : Type.

(** [rdsdata.execute_statement(..., sql=query, ...)['records']]: the rows,
    each the [stringValue]s of its fields. *)
Variable execute_statement : string -> Exc (list (list string)).
Variable literal_eval_obj : string -> Exc PyObj.

Record InfoDict : Type := {
  info_asin : string;
  info_title : string;
  info_image : PyObj
}.

Definition get_info_from_db (asin : string) : Exc InfoDict :=
  let query := get_info_from_db_query asin in
  records <- execute_statement query ;;
  info <- getitem records 0 ;;
  image_value <- getitem info 2 ;;
  info_image <-
    literal_eval_obj
      ("['" ++ strip_chars quote_chars (json_dumps image_value) ++ "']") ;;
  asin_value <- getitem info 0 ;;
  title_value <- getitem info 1 ;;
  Ok {| info_asin := json_dumps asin_value;
        info_title := json_dumps title_value;
        info_image := info_image |}.

End Catalog.

Arguments info_asin {PyObj} _.
Arguments info_title {PyObj} _.
Arguments info_image {PyObj} _.

(** No [<]...[>] on one line is left in a string: behind every [<], a
    newline or the end comes before any [>]. *)
Fixpoint tag_free (s : string) : bool :=
  match s with
  | EmptyString => true
  | String c s' =>
      (negb (Ascii.eqb c "<")
       || match until_gt s' with Some _ => false | None => true end)
      && tag_free s'
  end.

(** The blocks [pick_img] appends for the surviving images, given the
    bytes [raw u] fetched for each. *)
Definition image_blocks (sv : Services) (raw : string -> bytes)
  (img_list : list string) : list ContentBlock :=
  map (fun img => ImageBlock "image/jpeg" (get_base64_from_bytes sv (raw img)))
      img_list.

(** The blocks [refine_query] sends for the past queries. *)
Definition past_query_blocks (query_history : list string) : list ContentBlock :=
  map (fun query => TextBlock ("PAST USER QUERY: " ++ query))
      (firstn 4 query_history).

(** [thin s t]: [t] is [s] with some characters other than newline
    deleted. *)
Inductive thin : string -> string -> Prop :=
| thin_nil : thin EmptyString EmptyString
| thin_keep (c : ascii) (s t : string) :
    thin s t -> thin (String c s) (String c t)
| thin_drop (c : ascii) (s t : string) :
    Ascii.eqb c "010" = false -> thin s t -> thin (String c s) t.

(* ================================================================= *)
(** * Properties *)

(** ** Lists and strings *)

Lemma getitem_In {A} (l : list A) (i : Z) (x : A) :
  getitem l i = Ok x -> In x l.
Proof.
  unfold getitem.
  destruct (_ || _)%bool; [discriminate|].
  destruct (nth_error l _) eqn:E; [|discriminate].
  intros [= <-]. eapply nth_error_In; eauto.
Qed.

Lemma getitem_first {A} (l : list A) (d : A) :
  l <> [] -> getitem l 0 = Ok (hd d l).
Proof.
  destruct l as [|x l]; [congruence|]. intros _.
  unfold getitem. cbn [List.length hd].
  replace (0 <? 0)%Z with false by reflexivity.
  replace (0 <? 0)%Z with false by reflexivity.
  destruct (Z.leb_spec (Z.of_nat (S (List.length l))) 0); [lia|].
  reflexivity.
Qed.

Lemma getitem_last {A} (l : list A) (d : A) :
  l <> [] -> getitem l (-1) = Ok (last l d).
Proof.
  intros Hl. unfold getitem.
  replace (-1 <? 0)%Z with true by reflexivity.
  assert (Hn : 0 < List.length l) by (destruct l; [congruence | cbn; lia]).
  destruct (Z.ltb_spec (-1 + Z.of_nat (List.length l)) 0); [lia|].
  destruct (Z.leb_spec (Z.of_nat (List.length l)) (-1 + Z.of_nat (List.length l)));
    [lia|].
  cbn [orb].
  replace (Z.to_nat (-1 + Z.of_nat (List.length l))) with (List.length l - 1) by lia.
  destruct (exists_last Hl) as (l' & x & ->).
  rewrite last_last, length_app. cbn [List.length].
  replace (List.length l' + 1 - 1) with (List.length l') by lia.
  rewrite nth_error_app2 by lia. rewrite Nat.sub_diag. reflexivity.
Qed.

Lemma split_not_nil (sep : ascii) (s : string) : split sep s <> [].
Proof.
  destruct s as [|c s]; cbn; [discriminate|].
  destruct (Ascii.eqb c sep); [discriminate|].
  destruct (split sep s); discriminate.
Qed.

Lemma split_length (sep : ascii) (s : string) :
  List.length (split sep s) = S (count_char sep s).
Proof.
  induction s as [|c s IH]; cbn; [reflexivity|].
  destruct (Ascii.eqb c sep); cbn.
  - now rewrite IH.
  - destruct (split sep s); cbn in *; [discriminate | exact IH].
Qed.

Lemma split_no_sep (sep : ascii) (s : string) :
  count_char sep s = 0 -> split sep s = [s].
Proof.
  induction s as [|c s IH]; cbn; [reflexivity|].
  destruct (Ascii.eqb c sep); cbn; [discriminate|].
  intros H. now rewrite (IH H).
Qed.

Lemma split_hd (sep : ascii) (s : string) :
  hd EmptyString (split sep s) = before_first sep s.
Proof.
  induction s as [|c s IH]; cbn; [reflexivity|].
  destruct (Ascii.eqb c sep); cbn; [reflexivity|].
  destruct (split sep s) as [|w ws] eqn:E.
  - now destruct (split_not_nil sep s).
  - cbn in *. now rewrite IH.
Qed.

Lemma split_last_basename (s : string) :
  last (split "/" s) EmptyString = basename s.
Proof.
  induction s as [|c s IH]; [reflexivity|].
  cbn [split basename count_char].
  destruct (Ascii.eqb c "/") eqn:Ec.
  - cbn [Nat.add Nat.eqb].
    destruct (split "/" s) as [|w ws] eqn:E;
      [now destruct (split_not_nil "/" s)|].
    exact IH.
  - cbn [Nat.add].
    pose proof (split_length "/" s) as Hlen.
    destruct (split "/" s) as [|w ws] eqn:E;
      [now destruct (split_not_nil "/" s)|].
    destruct (count_char "/" s) as [|n] eqn:En.
    + rewrite (split_no_sep "/" s En) in E. injection E as <- <-. reflexivity.
    + cbn [Nat.eqb]. destruct ws as [|w' ws]; [discriminate|]. exact IH.
Qed.

Lemma asin_of_uri_eq (u : string) :
  asin_of_uri u = Ok (before_first "." (basename u)).
Proof.
  unfold asin_of_uri.
  rewrite (getitem_last _ EmptyString (split_not_nil _ _)). cbn [bindE].
  rewrite (getitem_first _ EmptyString (split_not_nil _ _)).
  now rewrite split_hd, split_last_basename.
Qed.

Lemma before_first_one_dot (b : string) :
  count_char "." b <= 1 -> before_first "." b = strip_last_extension b.
Proof.
  induction b as [|c b IH]; cbn; [reflexivity|].
  destruct (Ascii.eqb c "."); cbn.
  - intros H. destruct (count_char "." b); [reflexivity | lia].
  - intros H. now rewrite IH.
Qed.

Lemma get_asin_list_loop (l : list RetrievalResult) (acc : list string) :
  for_each l
    (fun search_item asin_list =>
       a <- asin_of_uri (uri (s3Location (location search_item))) ;;
       Ok (asin_list ++ [a])%list) acc
  = Ok (acc ++ map (fun r => before_first "." (basename (uri (s3Location (location r))))) l)%list.
Proof.
  revert acc. induction l as [|r l IH]; intros acc; cbn [for_each map].
  - now rewrite app_nil_r.
  - rewrite asin_of_uri_eq. cbn [bindE]. rewrite IH, <- app_assoc. reflexivity.
Qed.

Lemma get_asin_list_items (l : list RetrievalResult) :
  get_asin_list (SearchItems l)
  = Ok (Some (map (fun r => before_first "." (basename (uri (s3Location (location r))))) l)).
Proof.
  unfold get_asin_list. now rewrite get_asin_list_loop.
Qed.

(** ** ResultIdentifierExtractor *)

(** C2, as the code has it: a list of L hits gives exactly L identifiers,
    the i-th being the identifier of the i-th hit (so the empty list gives
    the empty sequence), and the call never raises; an absent input gives
    the absent value [None]. *)
Theorem get_asin_list_shapes :
  get_asin_list SearchNone = Ok None /\
  forall l : list RetrievalResult,
    exists asin_list,
      get_asin_list (SearchItems l) = Ok (Some asin_list) /\
      List.length asin_list = List.length l /\
      Forall2 (fun r a => asin_of_uri (uri (s3Location (location r))) = Ok a)
              l asin_list.
Proof.
  split; [reflexivity|]. intros l.
  eexists. split; [apply get_asin_list_items|].
  split; [apply length_map|].
  induction l as [|r l IH]; cbn [map]; constructor; auto using asin_of_uri_eq.
Qed.

(** C2, as stated, fails: an absent input does not give the empty
    sequence, and a single hit does not give the one-element sequence of
    its identifier. *)
Lemma get_asin_list_absent_single :
  get_asin_list SearchNone <> Ok (Some []) /\
  get_asin_list (SearchItem (hit "s3://bucket/bedrock-kb-data/B000.txt"))
    <> Ok (Some ["B000"]).
Proof. split; discriminate. Qed.

(** C4, as the code has it: the identifier is the part of the URI's
    basename before its first dot; when the basename has at most one dot
    this is the filename stem. *)
Theorem asin_is_basename_before_first_dot (r : RetrievalResult) :
  let u := uri (s3Location (location r)) in
  get_asin_list (SearchItems [r]) = Ok (Some [before_first "." (basename u)]) /\
  (count_char "." (basename u) <= 1 ->
   get_asin_list (SearchItems [r]) = Ok (Some [filename_stem u])).
Proof.
  cbv zeta. rewrite get_asin_list_items. cbn [map]. split; [reflexivity|].
  intros H. unfold filename_stem. now rewrite before_first_one_dot.
Qed.

Lemma asin_is_basename_before_first_dot_witness :
  count_char "." (basename "s3://bucket/bedrock-kb-data/B000.txt") <= 1 /\
  get_asin_list (SearchItems [hit "s3://bucket/bedrock-kb-data/B000.txt"])
  = Ok (Some [filename_stem "s3://bucket/bedrock-kb-data/B000.txt"]).
Proof.
  split; [cbn; lia|].
  apply (asin_is_basename_before_first_dot
           (hit "s3://bucket/bedrock-kb-data/B000.txt")).
  cbn; lia.
Defined.

(** C4, as stated, fails on a basename with two dots: the identifier of
    [B000.v2.txt] is [B000], not the stem [B000.v2]. *)
Lemma asin_of_two_dot_basename :
  filename_stem "s3://bucket/bedrock-kb-data/B000.v2.txt" = "B000.v2" /\
  get_asin_list (SearchItems [hit "s3://bucket/bedrock-kb-data/B000.v2.txt"])
  = Ok (Some ["B000"]) /\
  get_asin_list (SearchItems [hit "s3://bucket/bedrock-kb-data/B000.v2.txt"])
  <> Ok (Some [filename_stem "s3://bucket/bedrock-kb-data/B000.v2.txt"]).
Proof. repeat split. discriminate. Qed.

(** ** ImageAvailabilityFilter *)

Section Filter.

Variable sv : Services.

Lemma filter_loop_eq (img_list images : list string) :
  for_each img_list
    (fun url images =>
       try_except
         (image <- Image_open sv url ;; Ok (images ++ [url])%list)
         (Ok images))
    images
  = Ok (images ++ filter (fetch_ok sv) img_list)%list.
Proof.
  revert images.
  induction img_list as [|url rest IH]; intros images; cbn [for_each filter].
  - now rewrite app_nil_r.
  - unfold fetch_ok at 1.
    destruct (Image_open sv url) as [image|e]; cbn [bindE try_except].
    + rewrite IH, <- app_assoc. reflexivity.
    + apply IH.
Qed.

Lemma filter_image_url_eq (img_list : list string) :
  filter_image_url sv img_list
  = Ok (match filter (fetch_ok sv) img_list with
        | [] => None
        | images => Some images
        end).
Proof.
  unfold filter_image_url. rewrite filter_loop_eq. cbn [bindE app].
  now destruct (filter (fetch_ok sv) img_list).
Qed.

Lemma filter_image_url_some (img_list images : list string) :
  filter_image_url sv img_list = Ok (Some images) ->
  images = filter (fetch_ok sv) img_list /\ images <> [].
Proof.
  rewrite filter_image_url_eq.
  destruct (filter (fetch_ok sv) img_list); [discriminate|].
  intros [= <-]. split; [reflexivity | discriminate].
Qed.

Lemma filter_fixed (p : string -> bool) (l : list string) :
  filter p (filter p l) = filter p l.
Proof.
  induction l as [|x l IH]; cbn; [reflexivity|].
  destruct (p x) eqn:E; cbn; [rewrite E; f_equal|]; exact IH.
Qed.

End Filter.

(** C6: the filter never raises; it returns the URLs of the input whose
    fetch-and-decode succeeds, in their order in the input (a failing URL is
    skipped and the URLs behind it are still tried), and [None] when there
    is none. *)
Theorem filter_image_url_keeps_fetchable (sv : Services) (img_list : list string) :
  filter_image_url sv img_list
  = Ok (match filter (fetch_ok sv) img_list with
        | [] => None
        | images => Some images
        end).
Proof. apply filter_image_url_eq. Qed.

(** C7: filtering the list that the filter returned gives that list. *)
Theorem filter_image_url_idempotent (sv : Services) (img_list images : list string) :
  filter_image_url sv img_list = Ok (Some images) ->
  filter_image_url sv images = Ok (Some images).
Proof.
  intros H. destruct (filter_image_url_some sv _ _ H) as [-> Hne].
  rewrite filter_image_url_eq, filter_fixed.
  destruct (filter (fetch_ok sv) img_list); congruence.
Qed.

Lemma filter_image_url_idempotent_witness :
  filter_image_url (demo_services "[1]") [url_A; url_bad; url_B]
  = Ok (Some [url_A; url_B]) /\
  filter_image_url (demo_services "[1]") [url_A; url_B] = Ok (Some [url_A; url_B]).
Proof.
  split; [reflexivity|].
  apply (filter_image_url_idempotent (demo_services "[1]") [url_A; url_bad; url_B]).
  reflexivity.
Defined.

(** ** ImageSelector *)

Section Selector.

Variable sv : Services.

Lemma encode_loop_ok (img_list : list string) (content : list ContentBlock) :
  (forall u, In u img_list -> exists b, requests_get_content sv u = Ok b) ->
  exists content',
    for_each img_list
      (fun img content =>
         raw <- url_image_processing sv (Some img) ;;
         let image_data := get_base64_from_bytes sv raw in
         Ok (content ++ [ImageBlock "image/jpeg" image_data])%list)
      content
    = Ok content'.
Proof.
  revert content.
  induction img_list as [|img rest IH]; intros content H; cbn [for_each].
  - eauto.
  - destruct (H img (or_introl eq_refl)) as [b Hb].
    cbn [url_image_processing]. rewrite Hb. cbn [bindE].
    apply IH. intros u Hu. apply H. now right.
Qed.

End Selector.

(** C5: a URL that [pick_img] returns is one of the URLs that survived the
    filter, whatever the model replied. *)
Theorem pick_img_member (sv : Services) (text_input : string)
  (img_list : list string) (img : string) :
  pick_img sv text_input img_list = Ok (Some img) ->
  exists images,
    filter_image_url sv img_list = Ok (Some images) /\ In img images.
Proof.
  unfold pick_img.
  destruct (filter_image_url sv img_list) as [[images|]|e]; cbn [bindE];
    try discriminate.
  intros H. exists images. split; [reflexivity|].
  destruct (for_each images _ _) as [content|e]; cbn [bindE] in H;
    [|discriminate].
  destruct (invoke_model sv _ _) as [answer|e]; cbn [bindE] in H;
    [|discriminate].
  destruct (as_int _) as [i|]; [|discriminate].
  destruct (i <? _)%Z; [|discriminate].
  destruct (getitem images (i - 1)) as [x|e] eqn:E; cbn [bindE] in H;
    [|discriminate].
  injection H as <-. eapply getitem_In; eauto.
Qed.

Lemma pick_img_member_witness :
  pick_img (demo_services "[2]") "Men's shirt" [url_A; url_bad; url_B; url_C]
  = Ok (Some url_B) /\
  exists images,
    filter_image_url (demo_services "[2]") [url_A; url_bad; url_B; url_C]
    = Ok (Some images) /\ In url_B images.
Proof.
  split; [reflexivity|].
  apply (pick_img_member (demo_services "[2]") "Men's shirt"
           [url_A; url_bad; url_B; url_C] url_B).
  reflexivity.
Defined.

(** C10: when some URL survives the filter, the images can be encoded and
    the model replies [[0]], which [ast.literal_eval] reads as the integer
    0, then [pick_img] returns the last surviving URL. *)
Theorem pick_img_zero_is_last (sv : Services) (text_input : string)
  (img_list images : list string) :
  filter_image_url sv img_list = Ok (Some images) ->
  (forall u, In u images -> exists b, requests_get_content sv u = Ok b) ->
  (forall content, invoke_model sv model_id (pick_body content) = Ok "[0]") ->
  literal_eval sv "0" = Ok (PyInt 0) ->
  pick_img sv text_input img_list = Ok (Some (last images EmptyString)).
Proof.
  intros Hf Henc Hmodel Hparse.
  destruct (filter_image_url_some sv _ _ Hf) as [_ Hne].
  unfold pick_img. rewrite Hf. cbn [bindE].
  destruct (encode_loop_ok sv images [TextBlock text_input] Henc) as [content Hc].
  cbv zeta in Hc |- *. rewrite Hc.
  cbn [bindE]. fold (pick_body content). rewrite Hmodel. cbn [bindE].
  replace (strip_chars "[]" "[0]") with "0" by reflexivity.
  rewrite Hparse. cbn [as_int].
  destruct (Z.ltb_spec 0 (Z.of_nat (List.length images))) as [_|Hlen].
  - change (0 - 1)%Z with (-1)%Z.
    now rewrite (getitem_last images EmptyString Hne).
  - destruct images; [congruence | cbn in Hlen; lia].
Qed.

Lemma pick_img_zero_is_last_witness :
  filter_image_url (demo_services "[0]") [url_A; url_bad; url_B; url_C]
  = Ok (Some [url_A; url_B; url_C]) /\
  pick_img (demo_services "[0]") "Men's shirt" [url_A; url_bad; url_B; url_C]
  = Ok (Some url_C).
Proof.
  split; [reflexivity|].
  apply (pick_img_zero_is_last (demo_services "[0]") "Men's shirt"
           [url_A; url_bad; url_B; url_C] [url_A; url_B; url_C]).
  - reflexivity.
  - intros u Hu. exists [Byte.xff; Byte.xd8].
    cbn in Hu. destruct Hu as [<-|[<-|[<-|[]]]]; reflexivity.
  - reflexivity.
  - reflexivity.
Defined.

(** C1 on the code, at candidates that all survive the filter: of three,
    the reply [[2]] picks the second and [[5]] picks nothing, but the valid
    index [[3]] picks nothing either, as does [[1]] for a single candidate,
    and the reply [[-5]] makes the call raise [IndexError]. *)
Theorem pick_img_index_guard :
  pick_img (demo_services "[2]") "Men's shirt" [url_A; url_B; url_C]
  = Ok (Some url_B) /\
  pick_img (demo_services "[5]") "Men's shirt" [url_A; url_B; url_C]
  = Ok None /\
  pick_img (demo_services "[3]") "Men's shirt" [url_A; url_B; url_C]
  = Ok None /\
  pick_img (demo_services "[1]") "Men's shirt" [url_A]
  = Ok None /\
  pick_img (demo_services "[-5]") "Men's shirt" [url_A; url_B; url_C]
  = Raise IndexError.
Proof. repeat split. Qed.

(** ** QueryRefiner *)

Lemma nth_error_alloc {A} (h : list A) (x : A) :
  nth_error (h ++ [x]) (List.length h) = Some x.
Proof. rewrite nth_error_app2, Nat.sub_diag by lia. reflexivity. Qed.

Lemma nth_error_keep {A} (h ext : list A) (a : nat) (x : A) :
  nth_error h a = Some x -> nth_error (h ++ ext) a = Some x.
Proof.
  intros H. rewrite nth_error_app1; [exact H|].
  apply nth_error_Some. congruence.
Qed.

Lemma refine_query_run (sv : Services) (input_text : string)
  (query_history : option loc) (product : option Product) (log_level : string)
  (st : PyState) :
  refine_query sv input_text query_history product log_level st
  = match history_elems query_history st with
    | Raise e => (Raise e, st)
    | Ok qs =>
        match refine_content sv input_text qs product with
        | Raise e => (Raise e, st)
        | Ok content =>
            let n := root_handlers (with_root_handler st) in
            match nameToLevel log_level with
            | None => (Raise ValueError, with_root_handler st)
            | Some z =>
                match invoke_model sv model_id (refine_body content) with
                | Raise e =>
                    (Raise e,
                     {| heap := heap st; root_level := z; root_handlers := n |})
                | Ok raw =>
                    let q := clean_text raw in
                    match qs with
                    | [] =>
                        (Ok (q, List.length (heap st)),
                         {| heap := (heap st ++ [[q]])%list;
                            root_level := z; root_handlers := n |})
                    | _ :: _ =>
                        (Ok (q, List.length (heap st) + 2),
                         {| heap := (heap st ++ [[q]; q :: qs; firstn 3 (q :: qs)])%list;
                            root_level := z; root_handlers := n |})
                    end
                end
            end
        end
    end.
Proof.
  unfold refine_query, history_elems, refine_content, refine_body.
  unfold bindM, retM, liftE, deref, alloc, set_root_level, basicConfig.
  cbv zeta.
  destruct query_history as [a|].
  - destruct (nth_error (heap st) a) as [qs|] eqn:Ea; [|reflexivity].
    destruct product as [p|];
      [destruct (url_image_processing sv (image p)) as [raw0|e]; cbn [bindE];
       [|reflexivity] |];
      (destruct (nameToLevel log_level) as [z|]; [|reflexivity]);
      cbn [heap root_level root_handlers with_root_handler];
      (destruct (invoke_model sv model_id _) as [raw|e]; [|reflexivity]);
      rewrite Ea;
      (destruct qs as [|q0 qs]; [reflexivity|]);
      cbn [List.length Nat.eqb negb heap root_level];
      repeat (cbn [heap root_level root_handlers with_root_handler];
              first [rewrite nth_error_alloc
                    | rewrite (nth_error_keep _ _ _ _ Ea)]);
      cbn [heap root_level root_handlers with_root_handler];
      rewrite !length_app, <- !app_assoc; cbn [List.length app];
      rewrite <- Nat.add_assoc; reflexivity.
  - cbn [List.length Nat.eqb].
    destruct product as [p|];
      [destruct (url_image_processing sv (image p)) as [raw0|e]; cbn [bindE];
       [|reflexivity] |];
      (destruct (nameToLevel log_level) as [z|]; [|reflexivity]);
      cbn [heap root_level root_handlers with_root_handler];
      destruct (invoke_model sv model_id _) as [raw|e]; reflexivity.
Qed.

Lemma nth_error_third {A} (h : list A) (x y z : A) :
  nth_error (h ++ [x; y; z]) (List.length h + 2) = Some z.
Proof.
  rewrite nth_error_app2 by lia.
  replace (List.length h + 2 - List.length h) with 2 by lia. reflexivity.
Qed.

Lemma history_elems_at (query_history : option loc) (st st2 : PyState) :
  history_at query_history st2 = history_at query_history st ->
  history_elems query_history st2 = history_elems query_history st.
Proof.
  destruct query_history as [a|]; cbn; [|reflexivity]. now intros ->.
Qed.

(** What the caller observes of a call depends on the state only through
    the elements of the history. *)
Lemma refine_query_observed (sv : Services) (input_text : string)
  (query_history : option loc) (product : option Product) (log_level : string)
  (st : PyState) :
  observed (refine_query sv input_text query_history product log_level st)
  = (qs <- history_elems query_history st ;;
     content <- refine_content sv input_text qs product ;;
     z <- match nameToLevel log_level with
          | Some z => Ok z
          | None => Raise ValueError
          end ;;
     raw <- invoke_model sv model_id (refine_body content) ;;
     Ok (clean_text raw,
         Some match qs with
              | [] => [clean_text raw]
              | _ :: _ => firstn 3 (clean_text raw :: qs)
              end)).
Proof.
  rewrite refine_query_run.
  destruct (history_elems query_history st) as [qs|e]; [|reflexivity].
  cbn [bindE].
  destruct (refine_content sv input_text qs product) as [content|e];
    [|reflexivity].
  cbn [bindE].
  destruct (nameToLevel log_level) as [z|]; [|reflexivity].
  cbn [bindE].
  destruct (invoke_model sv model_id (refine_body content)) as [raw|e];
    [|reflexivity].
  cbn [bindE].
  destruct qs as [|q0 qs]; cbv zeta; unfold observed; cbn [heap].
  - now rewrite nth_error_alloc.
  - now rewrite nth_error_third.
Qed.

(** C3: when [refine_query] returns, the updated history has at most three
    elements and its first element is the returned query, which is the
    model's reply cleaned by [clean_text]. *)
Theorem refine_query_history_bound (sv : Services) (input_text : string)
  (query_history : option loc) (product : option Product) (log_level : string)
  (st st' : PyState) (q : string) (a : loc) :
  refine_query sv input_text query_history product log_level st
  = (Ok (q, a), st') ->
  exists updated_history,
    nth_error (heap st') a = Some updated_history /\
    List.length updated_history <= 3 /\
    nth_error updated_history 0 = Some q /\
    exists content raw,
      invoke_model sv model_id (refine_body content) = Ok raw /\
      q = clean_text raw.
Proof.
  rewrite refine_query_run.
  destruct (history_elems query_history st) as [qs|e]; [|discriminate].
  destruct (refine_content sv input_text qs product) as [content|e];
    [|discriminate].
  destruct (nameToLevel log_level) as [z|]; [|discriminate].
  destruct (invoke_model sv model_id (refine_body content)) as [raw|e] eqn:Er;
    [|discriminate].
  cbv zeta. destruct qs as [|q0 qs]; intros [= <- <- <-]; cbn [heap].
  - exists [clean_text raw]. rewrite nth_error_alloc.
    repeat split; cbn; eauto.
  - exists (firstn 3 (clean_text raw :: q0 :: qs)). rewrite nth_error_third.
    repeat split; eauto.
    rewrite length_firstn. apply Nat.le_min_l.
Qed.

Lemma refine_query_history_bound_witness :
  let sv := demo_services " <b>men shirts</b> " in
  let st' := {| heap := [["stretchy breathable sports wear"]; ["men shirts"];
                         ["men shirts"; "stretchy breathable sports wear"];
                         ["men shirts"; "stretchy breathable sports wear"]];
                root_level := 40; root_handlers := 1 |} in
  refine_query sv "I want shirts for men." (Some 0) None "ERROR" state0
  = (Ok ("men shirts", 3), st') /\
  exists updated_history,
    nth_error (heap st') 3 = Some updated_history /\
    List.length updated_history <= 3 /\
    nth_error updated_history 0 = Some "men shirts" /\
    exists content raw,
      invoke_model sv model_id (refine_body content) = Ok raw /\
      "men shirts" = clean_text raw.
Proof.
  cbv zeta. split; [reflexivity|].
  apply (refine_query_history_bound (demo_services " <b>men shirts</b> ")
           "I want shirts for men." (Some 0) None "ERROR" state0
           {| heap := [["stretchy breathable sports wear"]; ["men shirts"];
                       ["men shirts"; "stretchy breathable sports wear"];
                       ["men shirts"; "stretchy breathable sports wear"]];
              root_level := 40; root_handlers := 1 |}
           "men shirts" 3).
  reflexivity.
Defined.

(** The logging configuration a call leaves behind: the level of the root
    logger is the old one or the one [log_level] names, the root logger
    has the handlers it had or the one [basicConfig] gave it, and a call
    that returns has done both. *)
Lemma refine_query_logging (sv : Services) (input_text : string)
  (query_history : option loc) (product : option Product) (log_level : string)
  (st : PyState) :
  let res := refine_query sv input_text query_history product log_level st in
  (root_level (snd res) = root_level st \/
   nameToLevel log_level = Some (root_level (snd res))) /\
  (root_handlers (snd res) = root_handlers st \/
   root_handlers (snd res) = root_handlers (with_root_handler st)) /\
  (forall q a, fst res = Ok (q, a) ->
               nameToLevel log_level = Some (root_level (snd res)) /\
               root_handlers (snd res) = root_handlers (with_root_handler st)).
Proof.
  cbv zeta. rewrite refine_query_run.
  destruct (history_elems query_history st) as [qs|e];
    [|cbn; repeat split; auto; discriminate].
  destruct (refine_content sv input_text qs product) as [content|e];
    [|cbn; repeat split; auto; discriminate].
  cbv zeta.
  destruct (nameToLevel log_level) as [z|];
    [|cbn [fst snd with_root_handler root_level root_handlers];
      repeat split; auto; discriminate].
  destruct (invoke_model sv model_id (refine_body content)) as [raw|e];
    [|cbn [fst snd with_root_handler root_level root_handlers];
      repeat split; auto; discriminate].
  destruct qs; cbn [fst snd with_root_handler root_level root_handlers];
    repeat split; auto.
Qed.

(** C9, as the code has it: a call of [refine_query] leaves every list
    object that existed before it as it was, in particular the history it
    was passed; the history it returns is a new object; what the caller
    observes of the call is the same from any state in which the history
    has the same elements, so nothing an earlier call left behind is read.
    What a call does leave behind is the logging configuration: the root
    logger's level, set to the level [log_level] names, and a handler on
    the root logger if it had none. *)
Theorem refine_query_reads_only (sv : Services) (input_text : string)
  (query_history : option loc) (product : option Product) (log_level : string)
  (st st2 : PyState) :
  history_at query_history st2 = history_at query_history st ->
  let res := refine_query sv input_text query_history product log_level st in
  history_at query_history (snd res) = history_at query_history st /\
  (exists new, heap (snd res) = (heap st ++ new)%list) /\
  (forall q a, fst res = Ok (q, a) ->
               List.length (heap st) <= a /\ query_history <> Some a) /\
  observed (refine_query sv input_text query_history product log_level st2)
  = observed res /\
  (root_level (snd res) = root_level st \/
   nameToLevel log_level = Some (root_level (snd res))) /\
  (root_handlers (snd res) = root_handlers st \/
   root_handlers (snd res) = root_handlers (with_root_handler st)) /\
  (forall q a, fst res = Ok (q, a) ->
               nameToLevel log_level = Some (root_level (snd res)) /\
               root_handlers (snd res) = root_handlers (with_root_handler st)).
Proof.
  intros Hsame res.
  assert (Hext : exists new, heap (snd res) = (heap st ++ new)%list).
  { subst res. rewrite refine_query_run.
    destruct (history_elems query_history st) as [qs|e];
      [|exists []; cbn; now rewrite app_nil_r].
    destruct (refine_content sv input_text qs product) as [content|e];
      [|exists []; cbn; now rewrite app_nil_r].
    destruct (nameToLevel log_level) as [z|];
      [|exists []; cbn; now rewrite app_nil_r].
    destruct (invoke_model sv model_id (refine_body content)) as [raw|e];
      [|exists []; cbn; now rewrite app_nil_r].
    cbv zeta. destruct qs; cbn [snd heap]; eauto. }
  assert (Hfresh : forall q a, fst res = Ok (q, a) ->
                               List.length (heap st) <= a /\
                               query_history <> Some a).
  { subst res. rewrite refine_query_run. unfold history_elems.
    destruct query_history as [a0|].
    - destruct (nth_error (heap st) a0) as [qs|] eqn:Ea;
        [|cbn; discriminate].
      assert (a0 < List.length (heap st))
        by (apply nth_error_Some; congruence).
      destruct (refine_content sv input_text qs product) as [content|e];
        [|cbn; discriminate].
      destruct (nameToLevel log_level) as [z|]; [|cbn; discriminate].
      destruct (invoke_model sv model_id (refine_body content)) as [raw|e];
        [|cbn; discriminate].
      cbv zeta. destruct qs; cbn [fst]; intros q a [= <- <-];
        (split; [lia | intros [= ->]; lia]).
    - destruct (refine_content sv input_text [] product) as [content|e];
        [|cbn; discriminate].
      destruct (nameToLevel log_level) as [z|]; [|cbn; discriminate].
      destruct (invoke_model sv model_id (refine_body content)) as [raw|e];
        [|cbn; discriminate].
      cbn. intros q a [= <- <-]. split; [lia | discriminate]. }
  split; [|split; [exact Hext | split; [exact Hfresh|]]];
    [|split; [|apply refine_query_logging]].
  - destruct Hext as [new Hnew].
    destruct query_history as [a0|]; cbn [history_at]; [|reflexivity].
    destruct (nth_error (heap st) a0) as [qs|] eqn:Ea.
    + rewrite Hnew. now apply nth_error_keep.
    + subst res. rewrite refine_query_run. cbn [history_elems].
      rewrite Ea. cbn [snd]. exact Ea.
  - subst res. rewrite !refine_query_observed.
    now rewrite (history_elems_at _ _ _ Hsame).
Qed.

Lemma refine_query_reads_only_witness :
  let st2 := {| heap := [["stretchy breathable sports wear"]; ["men shirts"]];
                root_level := 10; root_handlers := 2 |} in
  let sv := demo_services " <b>men shirts</b> " in
  history_at (Some 0) st2 = history_at (Some 0) state0 /\
  history_at (Some 0)
    (snd (refine_query sv "I want shirts for men." (Some 0) None "INFO" state0))
  = Some ["stretchy breathable sports wear"] /\
  observed (refine_query sv "I want shirts for men." (Some 0) None "INFO" st2)
  = observed (refine_query sv "I want shirts for men." (Some 0) None "INFO" state0).
Proof.
  cbv zeta.
  pose proof (refine_query_reads_only (demo_services " <b>men shirts</b> ")
                "I want shirts for men." (Some 0) None "INFO" state0
                {| heap := [["stretchy breathable sports wear"]; ["men shirts"]];
                   root_level := 10; root_handlers := 2 |} eq_refl) as H.
  cbv zeta in H. destruct H as (H1 & _ & _ & H4 & _).
  split; [reflexivity|]. split; [exact H1 | exact H4].
Defined.

(** C9, as stated, fails for the state of the process: a call leaves the
    root logger at another level and with a handler it did not have, and
    both are still there when the next call starts. *)
Lemma refine_query_leaves_logging_state :
  let sv := demo_services "men shirts" in
  let st' := snd (refine_query sv "I want shirts for men." None None "INFO" state0) in
  fst (refine_query sv "I want shirts for men." None None "INFO" state0)
  = Ok ("men shirts", 1) /\
  (root_level state0, root_handlers state0) = (30%Z, 0) /\
  (root_level st', root_handlers st') = (20%Z, 1) /\
  st' <> {| heap := heap st';
            root_level := root_level state0;
            root_handlers := root_handlers state0 |}.
Proof. cbv zeta. repeat split. discriminate. Qed.

(** ** Catalog lookup *)

Lemma re_sub_nonword (s : string) (k : nat) :
  k <= nonword_run s ->
  re_sub_del match_nonword_run k s = keep_chars is_word s.
Proof.
  revert k. induction s as [|c s IH]; intros k Hk; [reflexivity|].
  cbn [re_sub_del keep_chars nonword_run] in *.
  destruct k as [|k].
  - unfold match_nonword_run. cbn [nonword_run].
    destruct (is_word c).
    + now rewrite IH by lia.
    + now apply IH.
  - destruct (is_word c); [lia|]. apply IH. lia.
Qed.

Lemma keep_chars_all (p : ascii -> bool) (s : string) :
  all_chars p (keep_chars p s) = true.
Proof.
  induction s as [|c s IH]; cbn; [reflexivity|].
  destruct (p c) eqn:E; cbn; [rewrite E|]; exact IH.
Qed.

(** C8, as the code has it: the identifier in the statement sent to the
    catalog is the input without the characters that are neither
    alphanumeric nor the underscore; it consists of alphanumeric characters
    and underscores only. *)
Theorem sanitize_asin_keeps_word_chars (asin : string) :
  get_info_from_db_query asin
  = "SELECT asin, title, image FROM products WHERE asin='"
    ++ sanitize_asin asin ++ "';" /\
  sanitize_asin asin
  = keep_chars (fun c => isalnum c || Ascii.eqb c "_") asin /\
  all_chars (fun c => isalnum c || Ascii.eqb c "_") (sanitize_asin asin) = true.
Proof.
  split; [reflexivity|].
  unfold sanitize_asin. rewrite re_sub_nonword by lia.
  split; [reflexivity|]. apply (keep_chars_all is_word).
Qed.

(** C8, as stated, fails on an underscore: it is not alphanumeric and it
    stays in the identifier. *)
Lemma sanitize_asin_keeps_underscore :
  isalnum "_" = false /\
  sanitize_asin "B07_X1;" = "B07_X1" /\
  sanitize_asin "B07_X1;" <> keep_chars isalnum "B07_X1;" /\
  all_chars isalnum (sanitize_asin "B07_X1;") = false.
Proof. repeat split. discriminate. Qed.

(* ================================================================= *)
(** * Further properties of the code *)

(** ** Identifiers and the documents they come from *)

Lemma count_char_app (c : ascii) (s t : string) :
  count_char c (s ++ t) = count_char c s + count_char c t.
Proof.
  induction s as [|d s IH]; cbn; [reflexivity|]. rewrite IH. lia.
Qed.

Lemma basename_no_slash (s : string) :
  count_char "/" s = 0 -> basename s = s.
Proof. destruct s as [|c s]; cbn; [reflexivity|]. now intros ->. Qed.

Lemma basename_after_slash (p rest : string) :
  count_char "/" rest = 0 -> basename (p ++ String "/" rest) = rest.
Proof.
  intros H. induction p as [|c p IH].
  - cbn. now apply basename_no_slash.
  - cbn [append basename]. rewrite <- IH at 2.
    assert (E : count_char "/" (String c (p ++ String "/" rest)) <> 0).
    { cbn [count_char]. rewrite count_char_app. cbn [count_char].
      rewrite Ascii.eqb_refl. lia. }
    apply Nat.eqb_neq in E. now rewrite E.
Qed.

Lemma before_first_app (sep : ascii) (s t : string) :
  count_char sep s = 0 -> before_first sep (s ++ String sep t) = s.
Proof.
  induction s as [|c s IH]; cbn.
  - now rewrite Ascii.eqb_refl.
  - destruct (Ascii.eqb c sep); cbn; [discriminate|].
    intros H. now rewrite IH.
Qed.

Lemma before_first_no_sep (sep : ascii) (s : string) :
  count_char sep (before_first sep s) = 0.
Proof.
  induction s as [|c s IH]; cbn; [reflexivity|].
  destruct (Ascii.eqb c sep) eqn:E; cbn; [reflexivity|]. now rewrite E.
Qed.

Lemma before_first_count_le (c sep : ascii) (s : string) :
  count_char c (before_first sep s) <= count_char c s.
Proof.
  induction s as [|d s IH]; cbn; [lia|].
  destruct (Ascii.eqb d sep); cbn; lia.
Qed.

Lemma basename_count_slash (s : string) : count_char "/" (basename s) = 0.
Proof.
  induction s as [|c s IH]; [reflexivity|].
  cbn [basename]. destruct (Nat.eqb_spec (count_char "/" (String c s)) 0); auto.
Qed.

(** The knowledge-base documents are stored under keys of the form
    [<prefix>/<asin>.<ext>]; from the URI of such a document
    [get_asin_list] gives back the [asin], provided the [asin] holds no
    slash and no dot and the extension no slash. *)
Theorem get_asin_list_document_key (prefix asin ext : string) :
  count_char "/" asin = 0 ->
  count_char "." asin = 0 ->
  count_char "/" ext = 0 ->
  get_asin_list (SearchItems [hit (prefix ++ String "/" (asin ++ String "." ext))])
  = Ok (Some [asin]).
Proof.
  intros Ha Hd He. rewrite get_asin_list_items. cbn [map hit location s3Location uri].
  rewrite basename_after_slash.
  - now rewrite before_first_app.
  - rewrite count_char_app. cbn [count_char]. cbn. lia.
Qed.

Lemma get_asin_list_document_key_witness :
  count_char "/" "B07XYZ1234" = 0 /\
  get_asin_list (SearchItems [hit "s3://bucket/bedrock-kb-data/B07XYZ1234.txt"])
  = Ok (Some ["B07XYZ1234"]).
Proof.
  split; [reflexivity|].
  apply (get_asin_list_document_key "s3://bucket/bedrock-kb-data" "B07XYZ1234" "txt");
    reflexivity.
Defined.

(** No identifier that [get_asin_list] returns holds a dot or a slash. *)
Theorem get_asin_list_no_dot_no_slash (l : list RetrievalResult)
  (asin_list : list string) :
  get_asin_list (SearchItems l) = Ok (Some asin_list) ->
  Forall (fun a => count_char "." a = 0 /\ count_char "/" a = 0) asin_list.
Proof.
  rewrite get_asin_list_items. intros [= <-].
  apply Forall_forall. intros a Ha. apply in_map_iff in Ha.
  destruct Ha as (r & <- & _). split.
  - apply before_first_no_sep.
  - pose proof (before_first_count_le "/" "." (basename (uri (s3Location (location r))))).
    rewrite basename_count_slash in H. lia.
Qed.

Lemma get_asin_list_no_dot_no_slash_witness :
  get_asin_list
    (SearchItems [hit "s3://bucket/kb/B000.v2.txt"; hit "s3://bucket/kb/.hidden/"])
  = Ok (Some ["B000"; ""]) /\
  Forall (fun a => count_char "." a = 0 /\ count_char "/" a = 0) ["B000"; ""].
Proof.
  split; [reflexivity|].
  apply (get_asin_list_no_dot_no_slash
           [hit "s3://bucket/kb/B000.v2.txt"; hit "s3://bucket/kb/.hidden/"]).
  reflexivity.
Defined.

(** ** The next product of a conversation *)

(** Of the identifiers retrieved, the continuing cell takes the first one
    that is not the product already shown, whatever comes before it being
    that product; when the list holds nothing else, and in particular when
    it is empty, the cell raises [IndexError]. *)
Theorem first_unseen_first (search_asin : string) (asin_list : list string) :
  match first_unseen search_asin (Some asin_list) with
  | Ok a =>
      a <> search_asin /\
      exists seen rest,
        asin_list = (seen ++ a :: rest)%list /\ Forall (eq search_asin) seen
  | Raise e => e = IndexError /\ Forall (eq search_asin) asin_list
  end.
Proof.
  unfold first_unseen.
  induction asin_list as [|x l IH]; cbn [filter].
  - cbn. auto.
  - destruct (String.eqb_spec x search_asin) as [->|Hx]; cbn [negb].
    + destruct (getitem _ 0) as [a|e].
      * destruct IH as (Ha & seen & rest & -> & Hseen). split; [exact Ha|].
        exists (search_asin :: seen), rest. split; [reflexivity | now constructor].
      * destruct IH as [-> Hall]. split; [reflexivity | now constructor].
    + rewrite (getitem_first _ EmptyString) by discriminate. cbn [hd].
      split; [exact Hx|]. exists [], l. split; [reflexivity | constructor].
Qed.

(** ** The catalog lookup *)

Lemma count_char_none (p : ascii -> bool) (c : ascii) (s : string) :
  all_chars p s = true -> p c = false -> count_char c s = 0.
Proof.
  intros Hs Hc. induction s as [|d s IH]; cbn in *; [reflexivity|].
  apply andb_true_iff in Hs. destruct Hs as [Hd Hs].
  destruct (Ascii.eqb_spec d c) as [->|_]; [congruence|]. now apply IH.
Qed.

Lemma sanitize_asin_eq (asin : string) :
  sanitize_asin asin = keep_chars is_word asin.
Proof. unfold sanitize_asin. apply re_sub_nonword. lia. Qed.

Lemma keep_chars_id (p : ascii -> bool) (s : string) :
  all_chars p s = true -> keep_chars p s = s.
Proof.
  induction s as [|c s IH]; cbn; [reflexivity|].
  intros H. apply andb_true_iff in H. destruct H as [-> H]. now rewrite IH.
Qed.

(** Whatever identifier is passed in, the statement sent to the catalog
    holds exactly the two single quotes that delimit the identifier, and
    no backslash: the identifier cannot end the string literal it is put
    in. *)
Theorem get_info_from_db_query_quotes (asin : string) :
  count_char "'" (get_info_from_db_query asin) = 2 /\
  count_char "\" (get_info_from_db_query asin) = 0.
Proof.
  unfold get_info_from_db_query. cbv zeta.
  rewrite !count_char_app, sanitize_asin_eq.
  rewrite (count_char_none is_word "'" _ (keep_chars_all is_word asin) eq_refl).
  rewrite (count_char_none is_word "\" _ (keep_chars_all is_word asin) eq_refl).
  split; reflexivity.
Qed.

(** Sanitizing is idempotent, and an identifier made of alphanumeric
    characters and underscores only is looked up as it is. *)
Theorem sanitize_asin_fixed (asin : string) :
  sanitize_asin (sanitize_asin asin) = sanitize_asin asin /\
  (all_chars is_word asin = true -> sanitize_asin asin = asin).
Proof.
  rewrite !sanitize_asin_eq. split.
  - apply keep_chars_id, keep_chars_all.
  - apply keep_chars_id.
Qed.

Lemma sanitize_asin_fixed_witness :
  all_chars is_word "B07XYZ1234" = true /\ sanitize_asin "B07XYZ1234" = "B07XYZ1234".
Proof.
  split; [reflexivity|].
  apply (sanitize_asin_fixed "B07XYZ1234"). reflexivity.
Defined.

Lemma length_append (s t : string) :
  String.length (s ++ t) = String.length s + String.length t.
Proof. induction s as [|c s IH]; cbn; [reflexivity | now rewrite IH]. Qed.

Lemma json_escape_char_length (c : ascii) :
  1 <= String.length (json_escape_char c).
Proof.
  unfold json_escape_char.
  repeat match goal with
         | |- context [if ?b then _ else _] => destruct b
         end; cbn; lia.
Qed.

Lemma json_escape_length (s : string) :
  String.length s <= String.length (json_escape s).
Proof.
  induction s as [|c s IH]; cbn; [lia|].
  rewrite length_append.
  pose proof (json_escape_char_length c). lia.
Qed.

Lemma json_dumps_differs (s : string) : json_dumps s <> s.
Proof.
  intros E. apply (f_equal String.length) in E.
  unfold json_dumps in E. cbn [String.length] in E.
  rewrite length_append in E. cbn [String.length] in E.
  pose proof (json_escape_length s). lia.
Qed.

Lemma getitem_nth_error {A} (l : list A) (i : nat) (x : A) :
  getitem l (Z.of_nat i) = Ok x -> nth_error l i = Some x.
Proof.
  unfold getitem.
  destruct (Z.ltb_spec (Z.of_nat i) 0); [lia|].
  destruct (_ || _)%bool; [discriminate|].
  rewrite Nat2Z.id. destruct (nth_error l i); [|discriminate].
  now intros [= ->].
Qed.

Section CatalogFacts.

Variable PyObj : Type.
Variable execute_statement : string -> Exc (list (list string)).
Variable literal_eval_obj : string -> Exc PyObj.

(** An identifier the catalog has no row for makes [get_info_from_db]
    raise [IndexError]; nothing is returned to say "not found". *)
Theorem get_info_from_db_not_found (asin : string) :
  execute_statement (get_info_from_db_query asin) = Ok [] ->
  get_info_from_db PyObj execute_statement literal_eval_obj asin
  = Raise IndexError.
Proof.
  intros H. unfold get_info_from_db. cbv zeta. now rewrite H.
Qed.

(** What [get_info_from_db] returns is built from the first row only, and
    its [asin] and [title] are the JSON texts of the stored values, in
    double quotes: they are never the stored values themselves, and the
    [asin] returned is never the identifier that was looked up. *)
Theorem get_info_from_db_quoted (asin : string) (d : InfoDict PyObj) :
  get_info_from_db PyObj execute_statement literal_eval_obj asin = Ok d ->
  exists row rows asin_value title_value image_value,
    execute_statement (get_info_from_db_query asin) = Ok (row :: rows) /\
    nth_error row 0 = Some asin_value /\
    nth_error row 1 = Some title_value /\
    nth_error row 2 = Some image_value /\
    info_asin d = json_dumps asin_value /\
    info_title d = json_dumps title_value /\
    info_asin d <> asin_value /\
    info_title d <> title_value /\
    info_asin d <> sanitize_asin asin.
Proof.
  unfold get_info_from_db. cbv zeta.
  destruct (execute_statement _) as [records|e]; [|discriminate].
  cbn [bindE].
  destruct (getitem records 0) as [row|e] eqn:Erow; [|discriminate].
  cbn [bindE].
  destruct (getitem row 2) as [image_value|e] eqn:E2; [|discriminate].
  cbn [bindE].
  destruct (literal_eval_obj _) as [obj|e]; [|discriminate].
  cbn [bindE].
  destruct (getitem row 0) as [asin_value|e] eqn:E0; [|discriminate].
  cbn [bindE].
  destruct (getitem row 1) as [title_value|e] eqn:E1; [|discriminate].
  cbn [bindE]. intros [= <-]. cbn [info_asin info_title].
  apply (getitem_nth_error _ 0) in Erow, E0.
  apply (getitem_nth_error _ 1) in E1.
  apply (getitem_nth_error _ 2) in E2.
  destruct records as [|row' rows]; [discriminate|].
  injection Erow as ->.
  exists row, rows, asin_value, title_value, image_value.
  repeat split; auto using json_dumps_differs.
  intros E.
  pose proof (keep_chars_all is_word asin) as Hw.
  rewrite <- sanitize_asin_eq, <- E in Hw. discriminate.
Qed.

End CatalogFacts.

Lemma get_info_from_db_not_found_witness :
  (fun _ : string => @Ok (list (list string)) [])
    (get_info_from_db_query "B07XYZ1234") = Ok [] /\
  get_info_from_db (list string) (fun _ => Ok []) (fun s => Ok [s]) "B07XYZ1234"
  = Raise IndexError.
Proof.
  split; [reflexivity|].
  apply (get_info_from_db_not_found (list string) (fun _ => Ok [])
           (fun s => Ok [s]) "B07XYZ1234").
  reflexivity.
Defined.

Lemma get_info_from_db_quoted_witness :
  let execute_statement :=
    fun _ : string => Ok [["B07XYZ1234"; "Men's shirt"; "https://a.jpg', 'https://b.jpg"]] in
  get_info_from_db (list string) execute_statement (fun s => Ok [s]) "B07XYZ1234"
  = Ok {| info_asin := json_dumps "B07XYZ1234";
          info_title := json_dumps "Men's shirt";
          info_image := ["['https://a.jpg', 'https://b.jpg']"] |} /\
  json_dumps "B07XYZ1234" <> sanitize_asin "B07XYZ1234".
Proof.
  cbv zeta. split; [reflexivity|].
  destruct (get_info_from_db_quoted (list string)
              (fun _ => Ok [["B07XYZ1234"; "Men's shirt"; "https://a.jpg', 'https://b.jpg"]])
              (fun s => Ok [s]) "B07XYZ1234"
              {| info_asin := json_dumps "B07XYZ1234";
                 info_title := json_dumps "Men's shirt";
                 info_image := ["['https://a.jpg', 'https://b.jpg']"] |}
              eq_refl)
    as (row & rows & a & t & i & _ & _ & _ & _ & _ & _ & _ & _ & H).
  exact H.
Defined.

Lemma lstrip_by_length (p : ascii -> bool) (s : string) :
  String.length (lstrip_by p s) <= String.length s.
Proof.
  induction s as [|c s IH]; cbn; [lia|]. destruct (p c); cbn; lia.
Qed.

Lemma rstrip_by_length (p : ascii -> bool) (s : string) :
  String.length (rstrip_by p s) <= String.length s.
Proof.
  induction s as [|c s IH]; cbn; [lia|].
  destruct (rstrip_by p s); [destruct (p c)|]; cbn in *; lia.
Qed.

Lemma rstrip_by_snoc (p : ascii -> bool) (s : string) (q : ascii) :
  p q = true -> rstrip_by p (s ++ String q EmptyString) = rstrip_by p s.
Proof.
  intros Hq. induction s as [|c s IH]; cbn; [now rewrite Hq|]. now rewrite IH.
Qed.

Lemma strip_fixed_parts (p : ascii -> bool) (s : string) :
  rstrip_by p (lstrip_by p s) = s -> lstrip_by p s = s /\ rstrip_by p s = s.
Proof.
  intros H.
  assert (Hl : lstrip_by p s = s).
  { destruct s as [|c s]; [reflexivity|]. cbn in *.
    destruct (p c); [|reflexivity].
    apply (f_equal String.length) in H. cbn in H.
    pose proof (rstrip_by_length p (lstrip_by p s)).
    pose proof (lstrip_by_length p s). lia. }
  split; [exact Hl|]. now rewrite Hl in H.
Qed.

Lemma json_escape_plain (s : string) :
  all_chars (fun c => let n := nat_of_ascii c in
                      ((32 <=? n) && (n <=? 126) && negb (n =? 34)
                       && negb (n =? 92))%nat) s = true ->
  json_escape s = s.
Proof.
  induction s as [|c s IH]; cbn [all_chars json_escape]; [reflexivity|].
  intros H. apply andb_true_iff in H. destruct H as [Hc Hs].
  rewrite (IH Hs). unfold json_escape_char. cbv zeta in Hc.
  destruct (nat_of_ascii c =? 34)%nat; [now rewrite !andb_false_r in Hc|].
  destruct (nat_of_ascii c =? 92)%nat; [now rewrite !andb_false_r in Hc|].
  rewrite !andb_true_r in Hc.
  destruct (Nat.eqb_spec (nat_of_ascii c) 10) as [E|_];
    [rewrite E in Hc; discriminate|].
  destruct (Nat.eqb_spec (nat_of_ascii c) 13) as [E|_];
    [rewrite E in Hc; discriminate|].
  destruct (Nat.eqb_spec (nat_of_ascii c) 9) as [E|_];
    [rewrite E in Hc; discriminate|].
  destruct (Nat.eqb_spec (nat_of_ascii c) 8) as [E|_];
    [rewrite E in Hc; discriminate|].
  destruct (Nat.eqb_spec (nat_of_ascii c) 12) as [E|_];
    [rewrite E in Hc; discriminate|].
  now rewrite Hc.
Qed.

(** The image text that [get_info_from_db] puts between [['] and [']] is
    the stored text itself when that text is printable ASCII without
    double quote and backslash and neither begins nor ends with a single
    quote: dumping it as JSON and stripping the quotes is then the
    identity. *)
Theorem image_value_round_trip (image_value : string) :
  all_chars (fun c => let n := nat_of_ascii c in
                      ((32 <=? n) && (n <=? 126) && negb (n =? 34)
                       && negb (n =? 92))%nat) image_value = true ->
  strip_chars quote_chars image_value = image_value ->
  strip_chars quote_chars (json_dumps image_value) = image_value.
Proof.
  intros Hplain Hstrip. unfold json_dumps. rewrite (json_escape_plain _ Hplain).
  unfold strip_chars in *.
  destruct (strip_fixed_parts _ _ Hstrip) as [Hl Hr].
  cbn [lstrip_by].
  replace (mem_char "034" quote_chars) with true by reflexivity.
  destruct image_value as [|c s]; [reflexivity|].
  cbn [append lstrip_by] in *.
  destruct (mem_char c quote_chars) eqn:Ec.
  - exfalso. apply (f_equal String.length) in Hl. cbn in Hl.
    pose proof (lstrip_by_length (fun c => mem_char c quote_chars) s). lia.
  - change (String c (s ++ String "034" EmptyString))
      with (String c s ++ String "034" EmptyString).
    now rewrite rstrip_by_snoc.
Qed.

Lemma image_value_round_trip_witness :
  strip_chars quote_chars "https://a.jpg', 'https://b.jpg"
  = "https://a.jpg', 'https://b.jpg" /\
  strip_chars quote_chars (json_dumps "https://a.jpg', 'https://b.jpg")
  = "https://a.jpg', 'https://b.jpg".
Proof.
  split; [reflexivity|].
  apply (image_value_round_trip "https://a.jpg', 'https://b.jpg"); reflexivity.
Defined.

(** ** Cleaning the model's reply *)

Lemma match_tag_eq (c : ascii) (s : string) :
  match_tag (String c s)
  = if Ascii.eqb c "<" then option_map S (until_gt s) else None.
Proof. destruct c as [[] [] [] [] [] [] [] []]; reflexivity. Qed.

Lemma tags_removed (s : string) :
  (forall k, tag_free (re_sub_del match_tag k s) = true) /\
  (until_gt s = None -> until_gt (re_sub_del match_tag 0 s) = None).
Proof.
  induction s as [|c s [IHfree IHgt]]; [split; reflexivity|].
  assert (Hgt : until_gt (String c s) = None ->
                until_gt (re_sub_del match_tag 0 (String c s)) = None).
  { cbn [re_sub_del]. rewrite match_tag_eq.
    destruct (Ascii.eqb c "<") eqn:Elt.
    - apply Ascii.eqb_eq in Elt. subst c. cbn [until_gt Ascii.eqb Bool.eqb].
      cbn. destruct (until_gt s) as [k|]; cbn; [discriminate|].
      intros _. now rewrite IHgt.
    - cbn [until_gt].
      destruct (Ascii.eqb c ">"); [discriminate|].
      destruct (Ascii.eqb c "010"); [reflexivity|].
      destruct (until_gt s); [discriminate|]. intros _. now rewrite IHgt. }
  split; [|exact Hgt].
  intros [|k]; cbn [re_sub_del]; [|apply IHfree].
  rewrite match_tag_eq.
  destruct (Ascii.eqb c "<") eqn:Elt.
  - destruct (until_gt s) as [k|] eqn:Es; cbn [option_map]; [apply IHfree|].
    cbn [tag_free]. rewrite Elt, IHfree, (IHgt eq_refl). reflexivity.
  - cbn [tag_free]. rewrite Elt, IHfree. reflexivity.
Qed.

Lemma thin_until_gt (s t : string) :
  thin s t -> until_gt s = None -> until_gt t = None.
Proof.
  induction 1 as [|c s t _ IH|c s t Hc _ IH]; cbn [until_gt]; [reflexivity| |].
  - destruct (Ascii.eqb c ">"); [discriminate|].
    destruct (Ascii.eqb c "010"); [reflexivity|].
    destruct (until_gt s); [discriminate|]. intros _. now rewrite IH.
  - destruct (Ascii.eqb c ">"); [discriminate|]. rewrite Hc.
    destruct (until_gt s); [discriminate|]. intros _. now apply IH.
Qed.

Lemma thin_tag_free (s t : string) :
  thin s t -> tag_free s = true -> tag_free t = true.
Proof.
  induction 1 as [|c s t Hst IH|c s t Hc _ IH]; cbn [tag_free]; [reflexivity| |].
  - intros H. apply andb_true_iff in H. destruct H as [H1 H2].
    rewrite (IH H2), andb_true_r.
    destruct (Ascii.eqb c "<"); [|reflexivity]. cbn [negb orb] in *.
    destruct (until_gt s) eqn:E; [discriminate|].
    now rewrite (thin_until_gt _ _ Hst E).
  - intros H. apply andb_true_iff in H. now apply IH.
Qed.

Lemma prefix_cons (a b : ascii) (w s : string) :
  String.prefix (String a w) (String b s) = true ->
  a = b /\ String.prefix w s = true.
Proof. cbn. destruct (ascii_dec a b); [auto | discriminate]. Qed.

Lemma replace_del_thin (old s w : string) :
  count_char "010" old = 0 ->
  count_char "010" w = 0 ->
  String.prefix w s = true ->
  thin s (re_sub_del (match_literal old) (String.length w) s).
Proof.
  intros Hold. revert w.
  induction s as [|c s IH]; intros w Hw Hp.
  - cbn. constructor.
  - destruct w as [|a w]; cbn [String.length re_sub_del].
    + unfold match_literal at 1.
      destruct (String.prefix old (String c s)) eqn:Ep.
      * destruct old as [|o old']; cbn [String.length];
          [apply thin_keep, (IH EmptyString); [reflexivity | now destruct s]|].
        apply prefix_cons in Ep. destruct Ep as [<- Ep].
        cbn [count_char] in Hold.
        destruct (Ascii.eqb o "010") eqn:Eo; [discriminate|].
        apply thin_drop; [exact Eo|]. now apply IH.
      * apply thin_keep, (IH EmptyString); [reflexivity | now destruct s].
    + apply prefix_cons in Hp. destruct Hp as [<- Hp].
      cbn [count_char] in Hw.
      destruct (Ascii.eqb a "010") eqn:Ea; [discriminate|].
      apply thin_drop; [exact Ea|]. now apply IH.
Qed.

Lemma lstrip_by_tag_free (p : ascii -> bool) (s : string) :
  tag_free s = true -> tag_free (lstrip_by p s) = true.
Proof.
  induction s as [|c s IH]; cbn [lstrip_by]; [reflexivity|].
  destruct (p c); [|tauto].
  cbn [tag_free]. intros H. apply andb_true_iff in H. now apply IH.
Qed.

Lemma until_gt_cons (c : ascii) (s : string) :
  until_gt (String c s)
  = if Ascii.eqb c ">" then Some 1
    else if Ascii.eqb c "010" then None
    else option_map S (until_gt s).
Proof. reflexivity. Qed.

Lemma rstrip_by_until_gt (p : ascii -> bool) (s : string) :
  until_gt s = None -> until_gt (rstrip_by p s) = None.
Proof.
  induction s as [|c s IH]; [reflexivity|].
  rewrite until_gt_cons. cbn [rstrip_by].
  destruct (Ascii.eqb c ">") eqn:E1; [discriminate|].
  destruct (Ascii.eqb c "010") eqn:E2.
  - intros _. destruct (rstrip_by p s); [destruct (p c)|];
      rewrite ?until_gt_cons, ?E1, ?E2; reflexivity.
  - destruct (until_gt s); [discriminate|]. intros _.
    specialize (IH eq_refl).
    destruct (rstrip_by p s) as [|d r]; [destruct (p c); [reflexivity|]|];
      rewrite until_gt_cons, E1, E2, ?IH; reflexivity.
Qed.

Lemma rstrip_by_tag_free (p : ascii -> bool) (s : string) :
  tag_free s = true -> tag_free (rstrip_by p s) = true.
Proof.
  induction s as [|c s IH]; cbn [rstrip_by tag_free]; [reflexivity|].
  intros H. apply andb_true_iff in H. destruct H as [H1 H2].
  specialize (IH H2).
  assert (Hg : until_gt s = None -> until_gt (rstrip_by p s) = None)
    by apply rstrip_by_until_gt.
  destruct (rstrip_by p s) as [|d r] eqn:Er.
  - destruct (p c); cbn [tag_free until_gt]; [reflexivity|].
    now rewrite orb_true_r.
  - cbn [tag_free] in *. rewrite IH, andb_true_r.
    destruct (Ascii.eqb c "<"); [|reflexivity]. cbn [negb orb] in *.
    destruct (until_gt s); [discriminate|]. now rewrite (Hg eq_refl).
Qed.

(** The cleaned reply holds no tag: behind every [<] left in it, a newline
    or the end of the text comes before any [>]. *)
Theorem clean_text_tag_free (text : string) :
  tag_free (clean_text text) = true.
Proof.
  unfold clean_text, strip, replace_del. cbv zeta.
  apply rstrip_by_tag_free, lstrip_by_tag_free.
  eapply thin_tag_free.
  - apply (replace_del_thin _ _ EmptyString); [reflexivity | reflexivity|].
    now destruct (re_sub_del match_tag 0 text).
  - apply tags_removed.
Qed.

Lemma lstrip_by_fixed (p : ascii -> bool) (s : string) :
  lstrip_by p (lstrip_by p s) = lstrip_by p s.
Proof.
  induction s as [|c s IH]; cbn; [reflexivity|].
  destruct (p c) eqn:E; [exact IH|]. cbn. now rewrite E.
Qed.

Lemma rstrip_by_fixed (p : ascii -> bool) (s : string) :
  rstrip_by p (rstrip_by p s) = rstrip_by p s.
Proof.
  induction s as [|c s IH]; cbn [rstrip_by]; [reflexivity|].
  destruct (rstrip_by p s) as [|d r] eqn:Er.
  - destruct (p c) eqn:E; cbn [rstrip_by]; [reflexivity | now rewrite E].
  - cbn [rstrip_by] in *. now rewrite IH.
Qed.

Lemma lstrip_rstrip (p : ascii -> bool) (s : string) :
  lstrip_by p s = s -> lstrip_by p (rstrip_by p s) = rstrip_by p s.
Proof.
  destruct s as [|c s]; [reflexivity|]. cbn [lstrip_by rstrip_by].
  destruct (p c) eqn:E.
  - intros H. apply (f_equal String.length) in H. cbn in H.
    pose proof (lstrip_by_length p s). lia.
  - intros _. destruct (rstrip_by p s); cbn [lstrip_by]; now rewrite E.
Qed.

(** The cleaned reply neither begins nor ends with whitespace: stripping
    it again, on either side, changes nothing. *)
Theorem clean_text_stripped (text : string) :
  lstrip_by isspace (clean_text text) = clean_text text /\
  rstrip_by isspace (clean_text text) = clean_text text.
Proof.
  unfold clean_text, strip. cbv zeta. split.
  - apply lstrip_rstrip, lstrip_by_fixed.
  - apply rstrip_by_fixed.
Qed.

Lemma tag_free_no_tags (s : string) :
  tag_free s = true -> re_sub_del match_tag 0 s = s.
Proof.
  induction s as [|c s IH]; cbn [tag_free re_sub_del]; [reflexivity|].
  intros H. apply andb_true_iff in H. destruct H as [H1 H2].
  rewrite match_tag_eq, (IH H2).
  destruct (Ascii.eqb c "<"); [|reflexivity]. cbn [negb orb] in H1.
  now destruct (until_gt s).
Qed.

Lemma no_slash_no_literal (s : string) :
  count_char "/" s = 0 -> replace_del "/[^a-zA-Z0-9 ]" s = s.
Proof.
  unfold replace_del.
  induction s as [|c s IH]; cbn [count_char re_sub_del]; [reflexivity|].
  destruct (Ascii.eqb c "/") eqn:E; [discriminate|]. cbn [Nat.add].
  intros H. rewrite (IH H). unfold match_literal. cbn [String.prefix].
  destruct (ascii_dec "/" c) as [<-|_]; [discriminate | reflexivity].
Qed.

(** A reply that needs no cleaning is returned as it is: no tag, no slash
    (so no occurrence of the literal that is deleted), no whitespace at
    either end. *)
Theorem clean_text_plain (text : string) :
  tag_free text = true ->
  count_char "/" text = 0 ->
  strip text = text ->
  clean_text text = text.
Proof.
  intros Htag Hslash Hstrip. unfold clean_text. cbv zeta.
  now rewrite (tag_free_no_tags _ Htag), (no_slash_no_literal _ Hslash).
Qed.

Lemma clean_text_plain_witness :
  strip "men's blue cotton shirts, size > 40" = "men's blue cotton shirts, size > 40" /\
  clean_text "men's blue cotton shirts, size > 40" = "men's blue cotton shirts, size > 40".
Proof.
  split; [reflexivity|].
  apply (clean_text_plain "men's blue cotton shirts, size > 40"); reflexivity.
Defined.

Lemma re_sub_del_count (m : string -> option nat) (c : ascii) (s : string) :
  forall k, count_char c (re_sub_del m k s) <= count_char c s.
Proof.
  induction s as [|d s IH]; intros k; cbn [re_sub_del count_char]; [lia|].
  destruct k as [|k].
  - destruct (m (String d s)) as [[|j]|]; cbn [count_char];
      try (specialize (IH 0); lia).
    specialize (IH j). lia.
  - specialize (IH k). lia.
Qed.

Lemma lstrip_by_count (p : ascii -> bool) (c : ascii) (s : string) :
  count_char c (lstrip_by p s) <= count_char c s.
Proof.
  induction s as [|d s IH]; cbn [lstrip_by count_char]; [lia|].
  destruct (p d); cbn [count_char]; lia.
Qed.

Lemma rstrip_by_count (p : ascii -> bool) (c : ascii) (s : string) :
  count_char c (rstrip_by p s) <= count_char c s.
Proof.
  induction s as [|d s IH]; cbn [rstrip_by count_char]; [lia|].
  destruct (rstrip_by p s); [destruct (p d)|]; cbn [count_char] in *; lia.
Qed.

(** Cleaning only deletes: no character occurs more often in the cleaned
    reply than in the reply. *)
Theorem clean_text_only_deletes (text : string) (c : ascii) :
  count_char c (clean_text text) <= count_char c text.
Proof.
  unfold clean_text, strip, replace_del. cbv zeta.
  etransitivity; [apply rstrip_by_count|].
  etransitivity; [apply lstrip_by_count|].
  etransitivity; [apply re_sub_del_count|].
  apply re_sub_del_count.
Qed.

(** ** Picking an image: the request, the reply and the failures *)

Lemma for_each_app {A S} (l1 l2 : list A) (body : A -> S -> Exc S) (s : S) :
  for_each (l1 ++ l2) body s = (s' <- for_each l1 body s ;; for_each l2 body s').
Proof.
  revert s. induction l1 as [|x l1 IH]; intros s; cbn [for_each app bindE];
    [reflexivity|].
  destruct (body x s); cbn [bindE]; [apply IH | reflexivity].
Qed.

Section SelectorFacts.

Variable sv : Services.

Lemma encode_loop_content (raw : string -> bytes) (img_list : list string)
  (content : list ContentBlock) :
  (forall u, In u img_list -> requests_get_content sv u = Ok (raw u)) ->
  for_each img_list
    (fun img content =>
       raw <- url_image_processing sv (Some img) ;;
       let image_data := get_base64_from_bytes sv raw in
       Ok (content ++ [ImageBlock "image/jpeg" image_data])%list)
    content
  = Ok (content ++ image_blocks sv raw img_list)%list.
Proof.
  revert content.
  induction img_list as [|img rest IH]; intros content H;
    cbn [for_each image_blocks map].
  - now rewrite app_nil_r.
  - cbn [url_image_processing]. rewrite (H img (or_introl eq_refl)).
    cbn [bindE]. rewrite IH by (intros u Hu; apply H; now right).
    unfold image_blocks. rewrite <- app_assoc. reflexivity.
Qed.

Lemma pick_img_replied (text_input : string) (img_list images : list string)
  (raw : string -> bytes) (answer : string) :
  filter_image_url sv img_list = Ok (Some images) ->
  (forall u, In u images -> requests_get_content sv u = Ok (raw u)) ->
  invoke_model sv model_id
    (pick_body (TextBlock text_input :: image_blocks sv raw images))
  = Ok answer ->
  pick_img sv text_input img_list
  = match as_int (match literal_eval sv (strip_chars "[]" answer) with
                  | Ok v => v
                  | Raise _ => PyStr answer
                  end) with
    | Some i =>
        if (i <? Z.of_nat (List.length images))%Z
        then img <- getitem images (i - 1) ;; Ok (Some img)
        else Ok None
    | None => Ok None
    end.
Proof.
  intros Hf Henc Hmodel. unfold pick_img. rewrite Hf. cbn [bindE].
  pose proof (encode_loop_content raw images [TextBlock text_input] Henc) as Hc.
  cbv zeta in Hc |- *. rewrite Hc. cbn [bindE app].
  fold (pick_body (TextBlock text_input :: image_blocks sv raw images)).
  rewrite Hmodel. reflexivity.
Qed.

Lemma pick_img_some (text_input : string) (img_list : list string)
  (img : string) :
  pick_img sv text_input img_list = Ok (Some img) ->
  In img (filter (fetch_ok sv) img_list).
Proof.
  unfold pick_img. rewrite filter_image_url_eq. cbn [bindE].
  destruct (filter (fetch_ok sv) img_list) as [|x images]; [discriminate|].
  set (l := x :: images).
  destruct (for_each l _ _) as [content|e]; cbn [bindE]; [|discriminate].
  destruct (invoke_model sv _ _) as [answer|e]; cbn [bindE]; [|discriminate].
  destruct (as_int _) as [i|]; [|discriminate].
  destruct (i <? _)%Z; [|discriminate].
  destruct (getitem l (i - 1)) as [y|e] eqn:E; cbn [bindE]; [|discriminate].
  intros [= <-]. eapply getitem_In; eauto.
Qed.

End SelectorFacts.

(** A URL that [pick_img] returns is one of the candidates it was given,
    and one that could be fetched and decoded: a candidate the filter
    dropped is never picked. *)
Theorem pick_img_fetchable_candidate (sv : Services) (text_input : string)
  (img_list : list string) (img : string) :
  pick_img sv text_input img_list = Ok (Some img) ->
  In img img_list /\ fetch_ok sv img = true.
Proof.
  intros H. apply pick_img_some in H. now apply filter_In in H.
Qed.

Lemma pick_img_fetchable_candidate_witness :
  pick_img (demo_services "[-1]") "Men's shirt" [url_bad; url_A; url_bad; url_B; url_C]
  = Ok (Some url_B) /\
  In url_B [url_bad; url_A; url_bad; url_B; url_C] /\
  fetch_ok (demo_services "[-1]") url_B = true.
Proof.
  split; [reflexivity|].
  apply (pick_img_fetchable_candidate (demo_services "[-1]") "Men's shirt"
           [url_bad; url_A; url_bad; url_B; url_C] url_B).
  reflexivity.
Defined.

(** When no candidate can be fetched and decoded (in particular when there
    is no candidate), [pick_img] returns [None], whatever the other
    collaborators would do: no image is fetched for encoding and the model
    is not asked. *)
Theorem pick_img_nothing_fetchable (sv : Services) (text_input : string)
  (img_list : list string) :
  (forall u, In u img_list -> fetch_ok sv u = false) ->
  pick_img sv text_input img_list = Ok None.
Proof.
  intros H. unfold pick_img. rewrite filter_image_url_eq.
  replace (filter (fetch_ok sv) img_list) with (@nil string); [reflexivity|].
  symmetry. induction img_list as [|u l IH]; cbn [filter]; [reflexivity|].
  rewrite (H u (or_introl eq_refl)). apply IH. intros v Hv. apply H. now right.
Qed.

Lemma pick_img_nothing_fetchable_witness :
  (forall u, In u [url_bad; "ftp://x/y.jpg"] ->
             fetch_ok (demo_services "[1]") u = false) /\
  pick_img (demo_services "[1]") "Men's shirt" [url_bad; "ftp://x/y.jpg"] = Ok None.
Proof.
  assert (H : forall u, In u [url_bad; "ftp://x/y.jpg"] ->
                        fetch_ok (demo_services "[1]") u = false).
  { intros u Hu. cbn in Hu. destruct Hu as [<-|[<-|[]]]; reflexivity. }
  split; [exact H|].
  apply (pick_img_nothing_fetchable (demo_services "[1]") "Men's shirt"
           [url_bad; "ftp://x/y.jpg"] H).
Defined.

(** A surviving image that cannot be fetched for encoding makes [pick_img]
    raise the exception of that fetch (the first such image decides):
    unlike in the filter, the failure is not skipped. *)
Theorem pick_img_encode_failure (sv : Services) (text_input : string)
  (img_list before after : list string) (img : string) (e : exn) :
  filter_image_url sv img_list = Ok (Some (before ++ img :: after)%list) ->
  (forall u, In u before -> exists b, requests_get_content sv u = Ok b) ->
  requests_get_content sv img = Raise e ->
  pick_img sv text_input img_list = Raise e.
Proof.
  intros Hf Hbefore Himg. unfold pick_img. rewrite Hf. cbn [bindE].
  cbv zeta. rewrite for_each_app.
  destruct (encode_loop_ok sv before [TextBlock text_input] Hbefore)
    as [content Hc].
  cbv zeta in Hc. rewrite Hc. cbn [bindE for_each url_image_processing].
  rewrite Himg. reflexivity.
Qed.

Lemma pick_img_encode_failure_witness :
  let sv :=
    {| Image_open := fun _ => Ok tt;
       requests_get_content := fun u =>
         if String.eqb u url_B then Raise ConnectionError else Ok [];
       b64encode := fun _ => EmptyString;
       invoke_model := fun _ _ => Ok "[1]";
       literal_eval := literal_eval_int |} in
  filter_image_url sv [url_A; url_B; url_C] = Ok (Some [url_A; url_B; url_C]) /\
  pick_img sv "Men's shirt" [url_A; url_B; url_C] = Raise ConnectionError.
Proof.
  cbv zeta. split; [reflexivity|].
  eapply (pick_img_encode_failure _ "Men's shirt" [url_A; url_B; url_C]
            [url_A] [url_C] url_B ConnectionError).
  - reflexivity.
  - intros u Hu. exists []. cbn in Hu. destruct Hu as [<-|[]]. reflexivity.
  - reflexivity.
Defined.

(** The model is asked once, with the text first and then one JPEG block
    per surviving image, in the filter's order; when that call fails,
    [pick_img] raises its exception. *)
Theorem pick_img_model_failure (sv : Services) (text_input : string)
  (img_list images : list string) (raw : string -> bytes) (e : exn) :
  filter_image_url sv img_list = Ok (Some images) ->
  (forall u, In u images -> requests_get_content sv u = Ok (raw u)) ->
  invoke_model sv model_id
    (pick_body (TextBlock text_input :: image_blocks sv raw images))
  = Raise e ->
  pick_img sv text_input img_list = Raise e.
Proof.
  intros Hf Henc Hmodel. unfold pick_img. rewrite Hf. cbn [bindE].
  pose proof (encode_loop_content sv raw images [TextBlock text_input] Henc) as Hc.
  cbv zeta in Hc |- *. rewrite Hc. cbn [bindE app].
  fold (pick_body (TextBlock text_input :: image_blocks sv raw images)).
  now rewrite Hmodel.
Qed.

Lemma pick_img_model_failure_witness :
  let sv :=
    {| Image_open := fun _ => Ok tt;
       requests_get_content := fun _ => Ok [];
       b64encode := fun _ => EmptyString;
       invoke_model := fun _ body =>
         if Nat.eqb (List.length (messages body)) 3 then Raise ClientError
         else Ok "[1]";
       literal_eval := literal_eval_int |} in
  filter_image_url sv [url_A; url_B] = Ok (Some [url_A; url_B]) /\
  pick_img sv "Men's shirt" [url_A; url_B] = Raise ClientError.
Proof.
  cbv zeta. split; [reflexivity|].
  eapply (pick_img_model_failure _ "Men's shirt" [url_A; url_B] [url_A; url_B]
            (fun _ => []) ClientError); reflexivity.
Defined.

(** A reply that [ast.literal_eval] rejects, or reads as something that is
    no integer, makes [pick_img] return [None]; it does not raise. *)
Theorem pick_img_malformed_reply (sv : Services) (text_input : string)
  (img_list images : list string) (raw : string -> bytes) (answer : string) :
  filter_image_url sv img_list = Ok (Some images) ->
  (forall u, In u images -> requests_get_content sv u = Ok (raw u)) ->
  invoke_model sv model_id
    (pick_body (TextBlock text_input :: image_blocks sv raw images))
  = Ok answer ->
  (exists e, literal_eval sv (strip_chars "[]" answer) = Raise e) \/
  (exists v, literal_eval sv (strip_chars "[]" answer) = Ok v /\ as_int v = None) ->
  pick_img sv text_input img_list = Ok None.
Proof.
  intros Hf Henc Hmodel Hparse.
  rewrite (pick_img_replied sv _ _ _ _ _ Hf Henc Hmodel).
  destruct Hparse as [[e ->]|(v & -> & ->)]; reflexivity.
Qed.

Lemma pick_img_malformed_reply_witness :
  filter_image_url (demo_services "[]") [url_A; url_B] = Ok (Some [url_A; url_B]) /\
  pick_img (demo_services "[]") "Men's shirt" [url_A; url_B] = Ok None.
Proof.
  split; [reflexivity|].
  apply (pick_img_malformed_reply (demo_services "[]") "Men's shirt"
           [url_A; url_B] [url_A; url_B] (fun _ => [Byte.xff; Byte.xd8]) "[]").
  - reflexivity.
  - intros u Hu. cbn in Hu. destruct Hu as [<-|[<-|[]]]; reflexivity.
  - reflexivity.
  - left. exists SyntaxError. reflexivity.
Defined.

(** What an integer reply [i] picks among [n] surviving images (a [bool]
    counting as 1 or 0): nothing when [i >= n]; the [i]-th image when
    [1 <= i < n]; for [1 - n <= i <= 0] the index wraps and the image at
    position [n + i] is returned; for [i < 1 - n] the call raises
    [IndexError]. *)
Theorem pick_img_integer_reply (sv : Services) (text_input : string)
  (img_list images : list string) (raw : string -> bytes) (answer : string)
  (v : PyValue) (i : Z) :
  filter_image_url sv img_list = Ok (Some images) ->
  (forall u, In u images -> requests_get_content sv u = Ok (raw u)) ->
  invoke_model sv model_id
    (pick_body (TextBlock text_input :: image_blocks sv raw images))
  = Ok answer ->
  literal_eval sv (strip_chars "[]" answer) = Ok v ->
  as_int v = Some i ->
  let n := Z.of_nat (List.length images) in
  pick_img sv text_input img_list
  = if (n <=? i)%Z then Ok None
    else if (1 <=? i)%Z then Ok (nth_error images (Z.to_nat (i - 1)))
    else if (1 - n <=? i)%Z then Ok (nth_error images (Z.to_nat (n + i - 1)))
    else Raise IndexError.
Proof.
  intros Hf Henc Hmodel Hparse Hint n.
  rewrite (pick_img_replied sv _ _ _ _ _ Hf Henc Hmodel), Hparse, Hint.
  fold n. unfold getitem. fold n.
  destruct (Z.leb_spec n i) as [Hge|Hlt].
  - destruct (Z.ltb_spec i n); [lia | reflexivity].
  - destruct (Z.ltb_spec i n); [|lia].
    destruct (Z.leb_spec 1 i) as [H1|H1].
    + destruct (Z.ltb_spec (i - 1) 0); [lia|]. cbn [orb].
      destruct (Z.ltb_spec (i - 1) 0); [lia|].
      destruct (Z.leb_spec n (i - 1)); [lia|]. cbn [orb].
      destruct (nth_error images (Z.to_nat (i - 1))) eqn:E; [reflexivity|].
      apply nth_error_None in E. lia.
    + destruct (Z.ltb_spec (i - 1) 0); [|lia].
      replace (i - 1 + n)%Z with (n + i - 1)%Z by lia.
      destruct (Z.leb_spec (1 - n) i) as [H2|H2].
      * destruct (Z.ltb_spec (n + i - 1) 0); [lia|].
        destruct (Z.leb_spec n (n + i - 1)); [lia|]. cbn [orb].
        destruct (nth_error images (Z.to_nat (n + i - 1))) eqn:E; [reflexivity|].
        apply nth_error_None in E. lia.
      * destruct (Z.ltb_spec (n + i - 1) 0); [reflexivity | lia].
Qed.

Lemma pick_img_integer_reply_witness :
  filter_image_url (demo_services "[-2]") [url_A; url_B; url_C]
  = Ok (Some [url_A; url_B; url_C]) /\
  pick_img (demo_services "[-2]") "Men's shirt" [url_A; url_B; url_C]
  = Ok (Some url_A).
Proof.
  split; [reflexivity|].
  apply (pick_img_integer_reply (demo_services "[-2]") "Men's shirt"
           [url_A; url_B; url_C] [url_A; url_B; url_C]
           (fun _ => [Byte.xff; Byte.xd8]) "[-2]" (PyInt (-2)) (-2)).
  - reflexivity.
  - intros u Hu. cbn in Hu. destruct Hu as [<-|[<-|[<-|[]]]]; reflexivity.
  - reflexivity.
  - reflexivity.
  - reflexivity.
Defined.

(** ** Refining a query: the request, the history and the failures *)

Lemma past_queries_eq (i : nat) (qs : list string) (content : list ContentBlock) :
  i <= 3 ->
  past_queries i qs content
  = (content ++ map (fun query => TextBlock ("PAST USER QUERY: " ++ query))
                    (firstn (4 - i) qs))%list.
Proof.
  revert i content. induction qs as [|q qs IH]; intros i content Hi.
  - cbn [past_queries]. rewrite firstn_nil. cbn. now rewrite app_nil_r.
  - cbn [past_queries].
    replace (4 - i) with (S (3 - i)) by lia. cbn [firstn map].
    destruct (Nat.eqb_spec i 3) as [->|Hne].
    + reflexivity.
    + rewrite IH by lia. rewrite <- app_assoc.
      replace (4 - S i) with (3 - i) by lia. reflexivity.
Qed.

Section RefinerFacts.

Variable sv : Services.

Lemma refine_query_returns (input_text : string) (query_history : option loc)
  (product : option Product) (log_level : string) (st st' : PyState)
  (q : string) (a : loc) :
  refine_query sv input_text query_history product log_level st
  = (Ok (q, a), st') ->
  exists qs new,
    history_elems query_history st = Ok qs /\
    heap st' = (heap st ++ new)%list /\
    List.length (heap st) <= a /\
    nth_error (heap st') a = Some (firstn 3 (q :: qs)) /\
    nameToLevel log_level = Some (root_level st').
Proof.
  rewrite refine_query_run.
  destruct (history_elems query_history st) as [qs|e]; [|discriminate].
  destruct (refine_content sv input_text qs product) as [content|e];
    [|discriminate].
  destruct (nameToLevel log_level) as [z|]; [|discriminate].
  destruct (invoke_model sv model_id (refine_body content)) as [raw|e];
    [|discriminate].
  cbv zeta. destruct qs as [|q0 qs]; intros [= <- <- <-]; cbn [heap root_level root_handlers with_root_handler].
  - exists [], [[clean_text raw]]. rewrite nth_error_alloc. repeat split. lia.
  - exists (q0 :: qs). eexists. rewrite nth_error_third.
    repeat split. lia.
Qed.

End RefinerFacts.

(** The request of [refine_query] and its result.  With [qs] the elements
    of the history passed (none for [None]), the model is asked with the
    current query first, then the first four elements of [qs] as past
    queries, in order, then the title and the image of the product if
    there is one; the call returns the cleaned reply and, as a new list,
    the cleaned reply followed by the first two elements of [qs], and it
    leaves the root logger at the level [log_level] names. *)
Theorem refine_query_request (sv : Services) (input_text : string)
  (query_history : option loc) (product : option Product) (log_level : string)
  (st : PyState) (qs : list string) (blocks : list ContentBlock) (z : Z)
  (raw : string) :
  match query_history with
  | Some a => nth_error (heap st) a = Some qs
  | None => qs = []
  end ->
  (product = None /\ blocks = []) \/
  (exists p u raw0,
      product = Some p /\ image p = Some u /\
      requests_get_content sv u = Ok raw0 /\
      blocks = [TextBlock ("IMAGE title: " ++ title p);
                ImageBlock "image/jpeg" (b64encode sv raw0)]) ->
  nameToLevel log_level = Some z ->
  invoke_model sv model_id
    (refine_body
       ([TextBlock ("CURRENT USER QUERY: " ++ input_text)]
        ++ past_query_blocks qs ++ blocks)%list)
  = Ok raw ->
  exists a st',
    refine_query sv input_text query_history product log_level st
    = (Ok (clean_text raw, a), st') /\
    nth_error (heap st') a = Some (firstn 3 (clean_text raw :: qs)) /\
    root_level st' = z.
Proof.
  intros Hhist Hprod Hlevel Hmodel.
  assert (Hq : history_elems query_history st = Ok qs).
  { destruct query_history as [a|]; cbn [history_elems];
      [now rewrite Hhist | now subst qs]. }
  assert (Hc : refine_content sv input_text qs product
               = Ok ([TextBlock ("CURRENT USER QUERY: " ++ input_text)]
                     ++ past_query_blocks qs ++ blocks)%list).
  { unfold refine_content. cbv zeta.
    assert (Hpast : (if Nat.eqb (List.length qs) 0
                     then [TextBlock ("CURRENT USER QUERY: " ++ input_text)]
                     else past_queries 0 qs
                            [TextBlock ("CURRENT USER QUERY: " ++ input_text)])
                    = ([TextBlock ("CURRENT USER QUERY: " ++ input_text)]
                       ++ past_query_blocks qs)%list).
    { destruct qs as [|q0 qs']; [reflexivity|]. cbn [List.length Nat.eqb].
      now rewrite past_queries_eq by lia. }
    rewrite Hpast.
    destruct Hprod as [[-> ->]|(p & u & raw0 & -> & Hu & Hraw & ->)].
    - now rewrite !app_nil_r.
    - rewrite Hu. cbn [url_image_processing]. rewrite Hraw. cbn [bindE].
      unfold get_base64_from_bytes. now rewrite <- app_assoc. }
  rewrite refine_query_run, Hq, Hc, Hlevel, Hmodel. cbv zeta.
  destruct qs as [|q0 qs']; do 2 eexists;
    (split; [reflexivity|]); cbn [heap root_level root_handlers with_root_handler].
  - rewrite nth_error_alloc. split; reflexivity.
  - rewrite nth_error_third. split; reflexivity.
Qed.

Lemma refine_query_request_witness :
  let sv :=
    {| Image_open := fun _ => Ok tt;
       requests_get_content := fun _ => Ok [Byte.xff; Byte.xd8];
       b64encode := fun _ => "/9g=";
       invoke_model := fun _ body =>
         if Nat.eqb (List.length (messages body)) 7
         then Ok "<query>q5</query>" else Raise ClientError;
       literal_eval := literal_eval_int |} in
  let st := {| heap := [["q4"; "q3"; "q2"; "q1"; "q0"]];
               root_level := 30; root_handlers := 0 |} in
  let product := {| asin := "B07"; title := "Shirt"; image := Some url_A |} in
  exists a st',
    refine_query sv "red ones" (Some 0) (Some product) "DEBUG" st
    = (Ok ("q5", a), st') /\
    nth_error (heap st') a = Some ["q5"; "q4"; "q3"] /\
    root_level st' = 10%Z.
Proof.
  cbv zeta.
  eapply (refine_query_request _ "red ones" (Some 0)
            (Some {| asin := "B07"; title := "Shirt"; image := Some url_A |})
            "DEBUG" {| heap := [["q4"; "q3"; "q2"; "q1"; "q0"]];
                       root_level := 30; root_handlers := 0 |}
            ["q4"; "q3"; "q2"; "q1"; "q0"] _ 10%Z "<query>q5</query>").
  - reflexivity.
  - right. do 3 eexists. repeat split.
  - reflexivity.
  - reflexivity.
Defined.

(** Feeding the history one call returns into the next call keeps the two
    newest queries in front: after two calls the history is the second
    query, the first query and the newest element of the history the first
    call was given, and the list the first caller passed is still what it
    was. *)
Theorem refine_query_twice (sv : Services) (text1 text2 : string)
  (query_history : option loc) (product1 product2 : option Product)
  (level1 level2 : string) (st st1 st2 : PyState) (q1 q2 : string)
  (a1 a2 : loc) :
  refine_query sv text1 query_history product1 level1 st = (Ok (q1, a1), st1) ->
  refine_query sv text2 (Some a1) product2 level2 st1 = (Ok (q2, a2), st2) ->
  exists qs,
    history_elems query_history st = Ok qs /\
    nth_error (heap st2) a2 = Some (q2 :: q1 :: firstn 1 qs) /\
    history_at query_history st2 = history_at query_history st.
Proof.
  intros H1 H2.
  destruct (refine_query_returns sv _ _ _ _ _ _ _ _ H1)
    as (qs & new1 & Hq & Hheap1 & Hfresh1 & Hnew1 & _).
  destruct (refine_query_returns sv _ _ _ _ _ _ _ _ H2)
    as (qs1 & new2 & Hq1 & Hheap2 & _ & Hnew2 & _).
  cbn [history_elems] in Hq1. rewrite Hnew1 in Hq1. injection Hq1 as <-.
  exists qs. split; [exact Hq|]. split.
  - rewrite Hnew2. destruct qs as [|x qs]; reflexivity.
  - destruct query_history as [a|]; cbn [history_at history_elems] in *;
      [|reflexivity].
    destruct (nth_error (heap st) a) as [l|] eqn:Ea; [|discriminate].
    rewrite Hheap2, Hheap1, <- app_assoc. now apply nth_error_keep.
Qed.

Lemma refine_query_twice_witness :
  let sv := demo_services " <b>men shirts</b> " in
  let st1 := snd (refine_query sv "I want shirts." (Some 0) None "ERROR" state0) in
  let st2 := snd (refine_query sv "For men." (Some 3) None "INFO" st1) in
  refine_query sv "For men." (Some 3) None "INFO" st1 = (Ok ("men shirts", 6), st2) /\
  exists qs,
    history_elems (Some 0) state0 = Ok qs /\
    nth_error (heap st2) 6 = Some ("men shirts" :: "men shirts" :: firstn 1 qs) /\
    history_at (Some 0) st2 = history_at (Some 0) state0.
Proof.
  cbv zeta. split; [reflexivity|].
  apply (refine_query_twice (demo_services " <b>men shirts</b> ")
           "I want shirts." "For men." (Some 0) None None "ERROR" "INFO"
           state0
           (snd (refine_query (demo_services " <b>men shirts</b> ")
                   "I want shirts." (Some 0) None "ERROR" state0))
           (snd (refine_query (demo_services " <b>men shirts</b> ")
                   "For men." (Some 3) None "INFO"
                   (snd (refine_query (demo_services " <b>men shirts</b> ")
                           "I want shirts." (Some 0) None "ERROR" state0))))
           "men shirts" "men shirts" 3 6);
    reflexivity.
Defined.

(** A call of [refine_query] that raises has allocated nothing: the heap
    is the heap it started from. *)
Theorem refine_query_failure_allocates_nothing (sv : Services)
  (input_text : string) (query_history : option loc) (product : option Product)
  (log_level : string) (st st' : PyState) (e : exn) :
  refine_query sv input_text query_history product log_level st
  = (Raise e, st') ->
  heap st' = heap st.
Proof.
  rewrite refine_query_run.
  destruct (history_elems query_history st) as [qs|e0];
    [|now intros [= _ <-]].
  destruct (refine_content sv input_text qs product) as [content|e0];
    [|now intros [= _ <-]].
  destruct (nameToLevel log_level) as [z|]; [|now intros [= _ <-]].
  destruct (invoke_model sv model_id (refine_body content)) as [raw|e0];
    [|now intros [= _ <-]].
  cbv zeta. destruct qs; discriminate.
Qed.

Lemma refine_query_failure_allocates_nothing_witness :
  let sv := demo_services "men shirts" in
  let product := {| asin := "B07"; title := "Shirt"; image := None |} in
  refine_query sv "red ones" (Some 0) (Some product) "ERROR" state0
  = (Raise MissingSchema, state0) /\
  heap state0 = heap state0.
Proof.
  cbv zeta. split; [reflexivity|].
  apply (refine_query_failure_allocates_nothing (demo_services "men shirts")
           "red ones" (Some 0)
           (Some {| asin := "B07"; title := "Shirt"; image := None |})
           "ERROR" state0 state0 MissingSchema).
  reflexivity.
Defined.

(** With a [log_level] that names no logging level, [refine_query] never
    returns, whatever the collaborators would do: the model is not asked,
    the heap and the level of the root logger stay as they were, and all
    that may be left behind is the handler [basicConfig] installs before
    [setLevel] raises.  Without history and product the exception is the
    [ValueError] of [setLevel]. *)
Theorem refine_query_unknown_level (sv : Services) (input_text : string)
  (query_history : option loc) (product : option Product) (log_level : string)
  (st : PyState) :
  nameToLevel log_level = None ->
  (exists e st',
      refine_query sv input_text query_history product log_level st
      = (Raise e, st') /\
      (st' = st \/ st' = with_root_handler st)) /\
  refine_query sv input_text None None log_level st
  = (Raise ValueError, with_root_handler st).
Proof.
  intros H. split.
  - rewrite refine_query_run.
    destruct (history_elems query_history st) as [qs|e]; [|eauto].
    destruct (refine_content sv input_text qs product) as [content|e]; [|eauto].
    cbv zeta. rewrite H. eauto.
  - rewrite refine_query_run. cbn. now rewrite H.
Qed.

Lemma refine_query_unknown_level_witness :
  nameToLevel "error" = None /\
  refine_query (demo_services "men shirts") "I want shirts for men." None None
    "error" state0
  = (Raise ValueError,
     {| heap := [["stretchy breathable sports wear"]];
        root_level := 30;
        root_handlers := 1 |}).
Proof.
  split; [reflexivity|].
  apply (refine_query_unknown_level (demo_services "men shirts")
           "I want shirts for men." None None "error" state0).
  reflexivity.
Defined.
